(** * HR screening report: page-flow layout engine and score processing

    A shallow embedding of the report generator (class [PdfBuilder],
    [addCandidateDetails] and [generatePdf]), of the score
    post-processing ([processAnalysis]) and of the state updates of the
    screening form (chosen files, progress, filters).

    - JavaScript numbers are exact rationals ([Q]); equalities between
      computed offsets are stated with [==]. The overall score is
      evaluated a second time with every operation rounded to binary64
      ([overall_match_score_binary64]), and the two are compared.
    - The mutable builder object is a record threaded through every method.
    - The drawing backend (the jsPDF document) is a record holding the page
      count, the current page, the graphics state and the list of
      everything painted so far, in paint order. Its line wrapping is a
      parameter of the development.
    - A content procedure handed to [addStyledSection] is a function on the
      builder paired with whatever the closure captured.
    - [generatePdf] is followed up to the point where the document is
      saved; failures raised by the backend are not modelled.
    - A state update of the form is a function from the previous state to
      the next one; [toLowerCase] is a parameter of the filters. *)

From Stdlib Require PrimFloat FloatOps Uint63 DecimalFacts DecimalZ.
From Stdlib Require Import QArith Qround Qabs Qpower ZArith List String Ascii.
From Stdlib Require Import Bool Lia Lqa DecimalString Permutation Sorted.
Import ListNotations.

Open Scope string_scope.
Open Scope Q_scope.

(** ** The drawing backend *)

Inductive Align := AlignLeft | AlignCenter.

Inductive RectStyle := Stroke | Fill.

Record Color := rgb { red : Z; green : Z; blue : Z }.

(** The part of the backend state that decides how the next primitive looks. *)
Record GState := mkGState {
  fontName : string;
  fontStyle : string;
  fontSize : Q;
  textColor : Color;
  fillColor : Color;
  drawColor : Color
}.

(** [doc.text] takes a string or an array of pre-wrapped lines. *)
Inductive TextArg :=
| OneLine (s : string)
| ManyLines (l : list string).

Inductive DrawOp :=
| OpText (t : TextArg) (x y : Q) (align : option Align)
         (lineHeightFactor : option Q)
| OpLine (x1 y1 x2 y2 : Q)
| OpRect (x y w h : Q) (style : RectStyle).

(** One primitive on the canvas: the page it went to, the graphics state it
    was painted with, and the primitive. *)
Record Painted := mkPainted {
  onPage : nat;
  withState : GState;
  drawn : DrawOp
}.

Record jsPDF := mkDoc {
  pageSizeWidth : Q;
  pageSizeHeight : Q;
  numberOfPages : nat;
  currentPage : nat;
  gstate : GState;
  canvas : list Painted
}.

Module Doc.

Definition withGState (f : GState -> GState) (d : jsPDF) : jsPDF :=
  mkDoc (pageSizeWidth d) (pageSizeHeight d) (numberOfPages d) (currentPage d)
        (f (gstate d)) (canvas d).

Definition setFont (name style : string) : jsPDF -> jsPDF :=
  withGState (fun g => mkGState name style (fontSize g)
                                (textColor g) (fillColor g) (drawColor g)).

Definition setFontSize (size : Q) : jsPDF -> jsPDF :=
  withGState (fun g => mkGState (fontName g) (fontStyle g) size
                                (textColor g) (fillColor g) (drawColor g)).

Definition setTextColor (r g b : Z) : jsPDF -> jsPDF :=
  withGState (fun s => mkGState (fontName s) (fontStyle s) (fontSize s)
                                (rgb r g b) (fillColor s) (drawColor s)).

Definition setFillColor (r g b : Z) : jsPDF -> jsPDF :=
  withGState (fun s => mkGState (fontName s) (fontStyle s) (fontSize s)
                                (textColor s) (rgb r g b) (drawColor s)).

Definition setDrawColor (r g b : Z) : jsPDF -> jsPDF :=
  withGState (fun s => mkGState (fontName s) (fontStyle s) (fontSize s)
                                (textColor s) (fillColor s) (rgb r g b)).

(** Every paint primitive lands on the current page, after what is there. *)
Definition paint (o : DrawOp) (d : jsPDF) : jsPDF :=
  mkDoc (pageSizeWidth d) (pageSizeHeight d) (numberOfPages d) (currentPage d)
        (gstate d) (canvas d ++ [mkPainted (currentPage d) (gstate d) o]).

Definition text (t : TextArg) (x y : Q) (align : option Align)
           (lineHeightFactor : option Q) : jsPDF -> jsPDF :=
  paint (OpText t x y align lineHeightFactor).

Definition line (x1 y1 x2 y2 : Q) : jsPDF -> jsPDF :=
  paint (OpLine x1 y1 x2 y2).

Definition rect (x y w h : Q) (style : RectStyle) : jsPDF -> jsPDF :=
  paint (OpRect x y w h style).

(** Appends a page and makes it the current one. *)
Definition addPage (d : jsPDF) : jsPDF :=
  mkDoc (pageSizeWidth d) (pageSizeHeight d) (S (numberOfPages d))
        (S (numberOfPages d)) (gstate d) (canvas d).

Definition getNumberOfPages (d : jsPDF) : nat := numberOfPages d.

(** Switches the drawing context; an index that names no page is ignored. *)
Definition setPage (i : nat) (d : jsPDF) : jsPDF :=
  if ((1 <=? i) && (i <=? numberOfPages d))%nat
  then mkDoc (pageSizeWidth d) (pageSizeHeight d) (numberOfPages d) i
             (gstate d) (canvas d)
  else d.

(** [new jsPDF('p', 'mm', 'a4')]: the backend is an external library; a
    fresh portrait A4 document in millimetres has one page of
    595.28 x 841.89 points and starts in 16 pt normal helvetica with
    black ink. Only the concrete runs further down depend on these. *)
Definition a4Width : Q := 595.28 * 25.4 / 72.
Definition a4Height : Q := 841.89 * 25.4 / 72.

Definition new : jsPDF :=
  mkDoc a4Width a4Height 1 1
        (mkGState "helvetica" "normal" 16 (rgb 0 0 0) (rgb 0 0 0) (rgb 0 0 0))
        [].

End Doc.

(** ** Layout constants *)

Definition MARGIN : Q := 15.
Definition FONT_SIZES_H1 : Q := 20.
Definition FONT_SIZES_H2 : Q := 16.
Definition FONT_SIZES_H3 : Q := 12.
Definition FONT_SIZES_BODY : Q := 10.
Definition FONT_SIZES_SMALL : Q := 8.
Definition LINE_HEIGHT_MULTIPLIER : Q := 1.5.
Definition FOOTER_HEIGHT : Q := 10.

(** ** The builder *)

Record PdfBuilder := mkBuilder {
  doc : jsPDF;
  y : Q;
  pageWidth : Q;
  pageHeight : Q;
  contentWidth : Q;
  pageNumber : nat
}.

Definition onDoc (f : jsPDF -> jsPDF) (b : PdfBuilder) : PdfBuilder :=
  mkBuilder (f (doc b)) (y b) (pageWidth b) (pageHeight b) (contentWidth b)
            (pageNumber b).

Definition setY (v : Q) (b : PdfBuilder) : PdfBuilder :=
  mkBuilder (doc b) v (pageWidth b) (pageHeight b) (contentWidth b)
            (pageNumber b).

Definition setPageNumber (n : nat) (b : PdfBuilder) : PdfBuilder :=
  mkBuilder (doc b) (y b) (pageWidth b) (pageHeight b) (contentWidth b) n.

(** [a > b] on JavaScript numbers. *)
Definition gtb (a b : Q) : bool := negb (Qle_bool a b).

Definition addPageHeader (b : PdfBuilder) : PdfBuilder :=
  let b := onDoc (Doc.setFont "helvetica" "normal") b in
  let b := onDoc (Doc.setFontSize FONT_SIZES_SMALL) b in
  let b := onDoc (Doc.setTextColor 150 150 150) b in
  let b := onDoc (Doc.text (OneLine "HR Screener AI Report")
                           MARGIN (MARGIN / 2) None None) b in
  onDoc (Doc.line MARGIN (MARGIN / 2 + 2)
                  (pageWidth b - MARGIN) (MARGIN / 2 + 2)) b.

Definition addPage (b : PdfBuilder) : PdfBuilder :=
  let b := if (0 <? pageNumber b)%nat then onDoc Doc.addPage b else b in
  let b := setPageNumber (S (pageNumber b)) b in
  let b := setY MARGIN b in
  addPageHeader b.

(** The constructor: a fresh document, geometry read off the backend, and
    the first page begun. *)
Definition newPdfBuilder : PdfBuilder :=
  let d := Doc.new in
  addPage (mkBuilder d 0 (pageSizeWidth d) (pageSizeHeight d)
                     (pageSizeWidth d - MARGIN * 2) 0).

(** The lowest offset a block may reach: the top of the footer band. *)
Definition bottomLimit (b : PdfBuilder) : Q :=
  pageHeight b - MARGIN - FOOTER_HEIGHT.

Definition checkAndAddPage (requiredHeight : Q) (b : PdfBuilder) : PdfBuilder :=
  if gtb (y b + requiredHeight) (bottomLimit b) then addPage b else b.

(** What is left between the cursor and the footer band. *)
Definition remainingSpace (b : PdfBuilder) : Q := bottomLimit b - y b.


(** [this.y += dy] *)
Definition advance (dy : Q) (b : PdfBuilder) : PdfBuilder := setY (y b + dy) b.

Definition addHeader (text : string) (b : PdfBuilder) : PdfBuilder :=
  let b := checkAndAddPage 20 b in
  let b := onDoc (Doc.setFont "helvetica" "bold") b in
  let b := onDoc (Doc.setFontSize FONT_SIZES_H1) b in
  let b := onDoc (Doc.setTextColor 30 64 175) b in
  let b := onDoc (Doc.text (OneLine text) (pageWidth b / 2) (y b)
                           (Some AlignCenter) None) b in
  advance (FONT_SIZES_H1 * 0.7) b.

Definition addSubheader (text : string) (b : PdfBuilder) : PdfBuilder :=
  let b := checkAndAddPage 15 b in
  let b := onDoc (Doc.setFont "helvetica" "bold") b in
  let b := onDoc (Doc.setFontSize FONT_SIZES_H2) b in
  let b := onDoc (Doc.setTextColor 37 99 235) b in
  let b := onDoc (Doc.text (OneLine text) MARGIN (y b) None None) b in
  advance (FONT_SIZES_H2 * 0.9) b.

Definition addSectionTitle (text : string) (b : PdfBuilder) : PdfBuilder :=
  let b := checkAndAddPage 10 b in
  let b := onDoc (Doc.setFont "helvetica" "bold") b in
  let b := onDoc (Doc.setFontSize FONT_SIZES_H3) b in
  let b := onDoc (Doc.setTextColor 17 24 39) b in
  let b := onDoc (Doc.text (OneLine text) MARGIN (y b) None None) b in
  advance (FONT_SIZES_H3 * 0.7) b.

Definition addSeparator (b : PdfBuilder) : PdfBuilder :=
  let b := checkAndAddPage 10 b in
  let b := advance 5 b in
  let b := onDoc (Doc.setDrawColor 229 231 235) b in
  let b := onDoc (Doc.line MARGIN (y b) (pageWidth b - MARGIN) (y b)) b in
  advance 5 b.

(** [array.length] as a number. *)
Definition lengthQ {A} (l : list A) : Q := inject_Z (Z.of_nat (List.length l)).

(** Height of a wrapped block of body text: one unit per line. *)
Definition textHeightOf (textLines : list string) : Q :=
  lengthQ textLines * (FONT_SIZES_BODY * 0.352778) * LINE_HEIGHT_MULTIPLIER.

(** The options object of [addBodyText]; an absent key is [None]. *)
Record BodyTextOptions := mkOptions {
  optFontStyle : option string;
  optColor : option Color
}.

Definition noOptions : BodyTextOptions := mkOptions None None.

Definition orDefault {A} (o : option A) (d : A) : A :=
  match o with Some a => a | None => d end.

(** [Math.round] on a rational: the nearest integer, halves upwards. *)
Definition Math_round (x : Q) : Z := Qfloor (x + (1 # 2)).

(** An integer as JavaScript prints it. *)
Definition stringOfZ (z : Z) : string := NilZero.string_of_int (Z.to_int z).

Definition stringOfNat (n : nat) : string := stringOfZ (Z.of_nat n).

Definition percent (score : Q) : string := stringOfZ (Math_round score) ++ "%".

(** ** Data handed over by the analysis *)

Record ParsedResume := mkParsedResume {
  name : string;
  email : string;
  phone : string;
  skills : list string;
  experience_years : Q;
  education_level : string;
  work_history_summary : string;
  projects : list string;
  certifications : list string;
  short_summary : string
}.

Record ParsedJobDescription := mkParsedJobDescription {
  role : string;
  required_skills : list string;
  preferred_skills : list string;
  minimum_experience : Q;
  education_required : string;
  job_summary : string
}.

Record CandidateScores := mkCandidateScores {
  skill_match_score : Q;
  experience_match_score : Q;
  education_match_score : Q;
  semantic_relevance_score : Q;
  overall_match_score : Q
}.

(** [reasoning] may be absent at run time, which [addBodyText] tolerates;
    a list that is absent or empty is [None] or [Some []]. The rank is the
    integer [processAnalysis] assigns. *)
Record CandidateResult := mkCandidateResult {
  rank : Z;
  parsed_resume : ParsedResume;
  scores : CandidateScores;
  reasoning : option string;
  strengths : option (list string);
  weaknesses : option (list string);
  missing_skills : option (list string);
  fit_assessment : option (list string)
}.

Record BiasFlag := mkBiasFlag {
  flag : string;
  category : string;
  severity : string
}.

Record BiasAnalysis := mkBiasAnalysis { bias_flags : list BiasFlag }.

Record FinalRecommendation := mkFinalRecommendation {
  top_candidate : string;
  recommendation_reasoning : option string
}.

Record AnalysisResult := mkAnalysisResult {
  parsed_job_description : ParsedJobDescription;
  ranked_candidates : list CandidateResult;
  bias_analysis : BiasAnalysis;
  final_recommendation : FinalRecommendation
}.


(** ** Renderers that measure text *)

(** The type of [doc.splitTextToSize], the backend's line wrapping: the
    graphics state it measures with, the text, the width, the lines. *)
Definition Wrapper : Type := GState -> string -> Q -> list string.

Section Engine.

(** [doc.splitTextToSize(text, width)]: the backend's line wrapping, which
    measures with the font that is current when it is called. *)
Variable splitTextToSize : Wrapper.

Definition wrap (b : PdfBuilder) (text : string) (width : Q) : list string :=
  splitTextToSize (gstate (doc b)) text width.

(** [text] is [None] for [undefined]; callers only pass strings. *)
Definition addBodyText (text : option string) (options : BodyTextOptions)
           (b : PdfBuilder) : PdfBuilder :=
  match text with
  | None => b
  | Some text =>
      let fontStyle := orDefault (optFontStyle options) "normal" in
      let color := orDefault (optColor options) (rgb 75 85 99) in
      let textLines := wrap b text (contentWidth b) in
      let textHeight := textHeightOf textLines in
      let b := checkAndAddPage textHeight b in
      let b := onDoc (Doc.setFont "helvetica" fontStyle) b in
      let b := onDoc (Doc.setFontSize FONT_SIZES_BODY) b in
      let b := onDoc (Doc.setTextColor (red color) (green color)
                                       (blue color)) b in
      let b := onDoc (Doc.text (ManyLines textLines) MARGIN (y b) None
                               (Some LINE_HEIGHT_MULTIPLIER)) b in
      advance textHeight b
  end.

(** The glyph literal, byte for byte as the source file has it. *)
Definition bulletGlyph : string := "â€¢".

Definition addBulletItem (b : PdfBuilder) (item : string) : PdfBuilder :=
  let textLines := wrap b item (contentWidth b - 5) in
  let textHeight := textHeightOf textLines in
  let b := checkAndAddPage textHeight b in
  let b := onDoc (Doc.setFont "helvetica" "normal") b in
  let b := onDoc (Doc.setFontSize FONT_SIZES_BODY) b in
  let b := onDoc (Doc.setTextColor 75 85 99) b in
  let b := onDoc (Doc.text (OneLine bulletGlyph) (MARGIN + 2) (y b) None
                           (Some LINE_HEIGHT_MULTIPLIER)) b in
  let b := onDoc (Doc.text (ManyLines textLines) (MARGIN + 5) (y b) None
                           (Some LINE_HEIGHT_MULTIPLIER)) b in
  advance textHeight b.

(** [items] is [None] when the list is absent. *)
Definition addBulletList (items : option (list string)) (b : PdfBuilder)
  : PdfBuilder :=
  match items with
  | None | Some [] =>
      addBodyText (Some "None listed") (mkOptions (Some "italic") None) b
  | Some items => fold_left addBulletItem items b
  end.

Definition scoreItems (s : CandidateScores) : list (string * Q) :=
  [ ("Semantic Fit", semantic_relevance_score s);
    ("Skill Match", skill_match_score s);
    ("Experience Match", experience_match_score s);
    ("Education Match", education_match_score s) ].

(** [array.forEach((item, index) => ...)] *)
Definition indexed {A} (l : list A) : list (A * Q) :=
  combine l (map (fun i => inject_Z (Z.of_nat i)) (seq 0 (List.length l))).

Definition addScoreItem (itemWidth : Q) (b : PdfBuilder)
           (entry : (string * Q) * Q) : PdfBuilder :=
  let '((label, score), index) := entry in
  let b := onDoc (Doc.setFont "helvetica" "bold") b in
  let b := onDoc (Doc.setFontSize FONT_SIZES_H3) b in
  let b := onDoc (Doc.setTextColor 17 24 39) b in
  let b := onDoc (Doc.text (OneLine (percent score))
                           (MARGIN + (itemWidth * index) + (itemWidth / 2))
                           (y b) (Some AlignCenter) None) b in
  let b := onDoc (Doc.setFont "helvetica" "normal") b in
  let b := onDoc (Doc.setFontSize FONT_SIZES_SMALL) b in
  let b := onDoc (Doc.setTextColor 75 85 99) b in
  onDoc (Doc.text (OneLine label)
                  (MARGIN + (itemWidth * index) + (itemWidth / 2))
                  (y b + 5) (Some AlignCenter) None) b.

Definition addScoreGrid (s : CandidateScores) (b : PdfBuilder) : PdfBuilder :=
  let itemWidth := contentWidth b / 4 in
  let b := checkAndAddPage 20 b in
  let b := fold_left (addScoreItem itemWidth) (indexed (scoreItems s)) b in
  advance 15 b.


(** *** Summary table *)

Definition tableHead : list string :=
  ["Rank"; "Name"; "Overall"; "Skill"; "Experience"].

Definition tableRow (c : CandidateResult) : list string :=
  [ stringOfZ (rank c);
    name (parsed_resume c);
    percent (overall_match_score (scores c));
    percent (skill_match_score (scores c));
    percent (experience_match_score (scores c)) ].

Definition rowHeight : Q := 8.
Definition colWidths : list Q := [15; 85; 25; 25; 25].

(** [colWidths[i]]; every row has as many cells as there are widths. *)
Definition colWidth (i : nat) : Q := nth i colWidths 0.

(** One header cell; the running [currentX] travels with the builder. *)
Definition paintHeadCell (st : PdfBuilder * Q) (cell : string * nat)
  : PdfBuilder * Q :=
  let '(b, currentX) := st in
  let '(header, i) := cell in
  let b := onDoc (Doc.text (OneLine header) (currentX + 3) (y b + 5.5)
                           None None) b in
  (b, currentX + colWidth i).

Definition paintBodyCell (st : PdfBuilder * Q) (cell : string * nat)
  : PdfBuilder * Q :=
  let '(b, currentX) := st in
  let '(c, i) := cell in
  let text := wrap b c (colWidth i - 6) in
  let b := onDoc (Doc.text (ManyLines text) (currentX + 3) (y b + 5.5)
                           None None) b in
  (b, currentX + colWidth i).

Definition withIndex {A} (l : list A) : list (A * nat) :=
  combine l (seq 0 (List.length l)).

Definition paintBodyRow (b : PdfBuilder) (entry : list string * nat)
  : PdfBuilder :=
  let '(row, rowIndex) := entry in
  let b :=
    if negb (rowIndex mod 2 =? 0)%nat then
      let b := onDoc (Doc.setFillColor 249 250 251) b in
      onDoc (Doc.rect MARGIN (y b) (contentWidth b) rowHeight Fill) b
    else b in
  let b := fst (fold_left paintBodyCell (withIndex row) (b, MARGIN)) in
  advance rowHeight b.

(** One vertical rule; the running [x] travels with the builder. *)
Definition paintColumnRule (startY : Q) (st : PdfBuilder * Q) (w : Q)
  : PdfBuilder * Q :=
  let '(b, x) := st in
  let x := x + w in
  (onDoc (Doc.line x startY x (y b)) b, x).

Definition addSummaryTable (candidates : list CandidateResult)
           (b : PdfBuilder) : PdfBuilder :=
  let body := map tableRow candidates in
  let startY := y b in
  let b := checkAndAddPage ((lengthQ body + 1) * rowHeight) b in
  let b := onDoc (Doc.setFont "helvetica" "bold") b in
  let b := onDoc (Doc.setFontSize FONT_SIZES_BODY) b in
  let b := onDoc (Doc.setFillColor 243 244 246) b in
  let b := onDoc (Doc.rect MARGIN (y b) (contentWidth b) rowHeight Fill) b in
  let b := fst (fold_left paintHeadCell (withIndex tableHead) (b, MARGIN)) in
  let b := advance rowHeight b in
  let b := onDoc (Doc.setFont "helvetica" "normal") b in
  let b := fold_left paintBodyRow (withIndex body) b in
  let b := onDoc (Doc.setDrawColor 209 213 219) b in
  let b := onDoc (Doc.rect MARGIN startY (contentWidth b) (y b - startY)
                           Stroke) b in
  let b := fst (fold_left (paintColumnRule startY) (removelast colWidths)
                          (b, MARGIN)) in
  advance 5 b.

(** *** Styled section *)

(** The content procedure is a closure: besides the builder it may read
    and write whatever it captured, the environment [E]. *)
Definition World (E : Type) : Type := PdfBuilder * E.

Definition onBuilder {E} (f : PdfBuilder -> PdfBuilder) (w : World E)
  : World E := (f (fst w), snd w).

(** The page-break test of the styled section. *)
Definition spansPageBreak (startY endY pageHeight : Q) : bool :=
  negb (Qfloor ((startY - 0.1) / pageHeight)
        =? Qfloor ((endY - 0.1) / pageHeight))%Z.

Definition addStyledSection {E} (title : string)
           (content : World E -> World E) (w : World E) : World E :=
  let w := onBuilder (checkAndAddPage 15) w in
  let startY := y (fst w) in
  let w := onBuilder (advance 5) w in
  let w := onBuilder (addSectionTitle title) w in
  let w := onBuilder (advance 2) w in
  let contentStartY := y (fst w) in
  let w := content w in
  let w := onBuilder (advance 5) w in
  let endY := y (fst w) in
  if spansPageBreak startY endY (pageHeight (fst w)) then
    let w := onBuilder (setY (contentStartY - 7)) w in
    let w := onBuilder (addSectionTitle title) w in
    let w := onBuilder (advance 2) w in
    let w := content w in
    onBuilder (setY endY) w
  else
    let w := onBuilder (onDoc (Doc.setFillColor 243 244 246)) w in
    let w := onBuilder (fun b => onDoc (Doc.rect MARGIN startY (contentWidth b)
                                                 (endY - startY) Fill) b) w in
    let w := onBuilder (setY (contentStartY - 7)) w in
    let w := onBuilder (addSectionTitle title) w in
    let w := onBuilder (advance 2) w in
    let w := content w in
    onBuilder (setY endY) w.

(** *** Footers *)

Definition pageStr (i totalPages : nat) : string :=
  "Page " ++ stringOfNat i ++ " of " ++ stringOfNat totalPages.

Definition addFooter (totalPages : nat) (b : PdfBuilder) (i : nat)
  : PdfBuilder :=
  let b := onDoc (Doc.setPage i) b in
  let footerY := pageHeight b - FOOTER_HEIGHT in
  let b := onDoc (Doc.setFont "helvetica" "normal") b in
  let b := onDoc (Doc.setFontSize FONT_SIZES_SMALL) b in
  let b := onDoc (Doc.setTextColor 150 150 150) b in
  let b := onDoc (Doc.line MARGIN footerY (pageWidth b - MARGIN) footerY) b in
  onDoc (Doc.text (OneLine (pageStr i totalPages)) (pageWidth b / 2)
                  (footerY + 6) (Some AlignCenter) None) b.

Definition finalizeAndAddFooters (b : PdfBuilder) : PdfBuilder :=
  let totalPages := Doc.getNumberOfPages (doc b) in
  fold_left (addFooter totalPages) (seq 1 totalPages) b.


(** *** The report *)

Definition addCandidateDetails (b : PdfBuilder) (candidate : CandidateResult)
  : PdfBuilder :=
  let estimatedHeight := 150 in
  let b := checkAndAddPage estimatedHeight b in
  let candidateHeader :=
    "Rank " ++ stringOfZ (rank candidate) ++ ": "
            ++ name (parsed_resume candidate) in
  let b := addSectionTitle candidateHeader b in
  let b := addBodyText
             (Some ("Overall Match: "
                      ++ percent (overall_match_score (scores candidate))))
             (mkOptions (Some "bold") None) b in
  let b := advance 5 b in
  let b := addScoreGrid (scores candidate) b in
  let b := advance 5 b in
  let b := addSectionTitle "Reasoning for Rank" b in
  let b := addBodyText (reasoning candidate) noOptions b in
  let b := advance 5 b in
  let b := addSectionTitle "Strengths" b in
  let b := addBulletList (strengths candidate) b in
  let b := advance 5 b in
  let b := addSectionTitle "Weaknesses" b in
  let b := addBulletList (weaknesses candidate) b in
  let b := advance 5 b in
  let b := addSectionTitle "Fit Assessment" b in
  addBulletList (fit_assessment candidate) b.

Definition renderBiasFlag (b : PdfBuilder) (f : BiasFlag) : PdfBuilder :=
  let b := addBodyText (Some (category f ++ " (" ++ severity f ++ ")"))
                       (mkOptions (Some "bold") None) b in
  let b := addBulletList (Some [flag f]) b in
  advance 2 b.

Definition renderBiasAnalysis (result : AnalysisResult) (b : PdfBuilder)
  : PdfBuilder :=
  let flags := bias_flags (bias_analysis result) in
  if (0 <? List.length flags)%nat then fold_left renderBiasFlag flags b
  else addBodyText (Some "No concerning biases detected.")
                   (mkOptions None (Some (rgb 22 101 52))) b.

Definition renderRecommendation (result : AnalysisResult) (b : PdfBuilder)
  : PdfBuilder :=
  let b := addBodyText
             (Some ("Top Candidate: "
                      ++ top_candidate (final_recommendation result)))
             (mkOptions (Some "bold") None) b in
  addBodyText (recommendation_reasoning (final_recommendation result))
              noOptions b.

Definition addCandidateAndSeparator (total : nat) (b : PdfBuilder)
           (entry : CandidateResult * nat) : PdfBuilder :=
  let '(candidate, index) := entry in
  let b := addCandidateDetails b candidate in
  if (index <? total - 1)%nat then addSeparator b else b.

(** The document as it stands when it is handed to [doc.save]; [today] is
    the locale date string of the run. The two content closures capture
    nothing but the builder and the result, so their environment is
    [unit]. *)
Definition generatePdf (today : string) (result : AnalysisResult)
  : PdfBuilder :=
  let b := newPdfBuilder in
  let b := addHeader "Job Applicant Screening Results" b in
  let b := advance 5 b in
  let b := addBodyText
             (Some ("Role Analyzed: " ++ role (parsed_job_description result)))
             (mkOptions (Some "bold") None) b in
  let b := addBodyText (Some ("Date Generated: " ++ today)) noOptions b in
  let b := addSeparator b in
  let b := addSubheader "Candidate Summary" b in
  let b := addSummaryTable (ranked_candidates result) b in
  let b := addPage b in
  let b := addSubheader "Detailed Candidate Analysis" b in
  let b := advance 5 b in
  let b := fold_left
             (addCandidateAndSeparator (List.length (ranked_candidates result)))
             (withIndex (ranked_candidates result)) b in
  let b := checkAndAddPage 80 b in
  let b := addSeparator b in
  let w : World unit := (b, tt) in
  let w := addStyledSection "Bias Analysis Report"
                            (onBuilder (renderBiasAnalysis result)) w in
  let w := onBuilder (advance 10) w in
  let w := addStyledSection "Final Recommendation"
                            (onBuilder (renderRecommendation result)) w in
  finalizeAndAddFooters (fst w).

End Engine.

(** ** Score post-processing *)

(** Raw scores as they arrive: a component that is missing, [null] or [NaN]
    is [None]. *)
Record UnrankedCandidateScores := mkUnrankedCandidateScores {
  raw_skill_match_score : option Q;
  raw_experience_match_score : option Q;
  raw_education_match_score : option Q;
  raw_semantic_relevance_score : option Q
}.

Record UnrankedCandidateResult := mkUnrankedCandidateResult {
  raw_parsed_resume : ParsedResume;
  raw_scores : option UnrankedCandidateScores;
  raw_reasoning : option string;
  raw_strengths : option (list string);
  raw_weaknesses : option (list string);
  raw_missing_skills : option (list string);
  raw_fit_assessment : option (list string)
}.

(** [candidate_analysis] is [None] when it is missing or not an array. *)
Record RawAnalysisResult := mkRawAnalysisResult {
  raw_parsed_job_description : option ParsedJobDescription;
  candidate_analysis : option (list UnrankedCandidateResult);
  raw_bias_analysis : option BiasAnalysis;
  raw_final_recommendation : option FinalRecommendation
}.

Definition Math_max (a b : Q) : Q := if Qle_bool a b then b else a.
Definition Math_min (a b : Q) : Q := if Qle_bool a b then a else b.

(** [x || 0] on a number: absent and zero both give zero. *)
Definition orZero (x : option Q) : Q :=
  match x with
  | None => 0
  | Some v => if Qeq_bool v 0 then 0 else v
  end.

Definition clampScore (x : option Q) : Q :=
  Math_max 0 (Math_min 100 (orZero x)).

Definition emptyScores : UnrankedCandidateScores :=
  mkUnrankedCandidateScores None None None None.

(** A candidate with the overall score but before ranking; the record is the
    ranked one with a provisional rank of zero. *)
Definition withOverall (candidate : UnrankedCandidateResult)
  : CandidateResult :=
  let scores := orDefault (raw_scores candidate) emptyScores in
  let semantic := clampScore (raw_semantic_relevance_score scores) in
  let skill := clampScore (raw_skill_match_score scores) in
  let experience := clampScore (raw_experience_match_score scores) in
  let education := clampScore (raw_education_match_score scores) in
  let overall_match_score :=
    (semantic * 0.45) + (skill * 0.30) + (experience * 0.20)
    + (education * 0.05) in
  mkCandidateResult 0 (raw_parsed_resume candidate)
    (mkCandidateScores skill experience education semantic overall_match_score)
    (raw_reasoning candidate) (raw_strengths candidate)
    (raw_weaknesses candidate) (raw_missing_skills candidate)
    (raw_fit_assessment candidate).

(** [array.sort((a, b) => b.overall - a.overall)]: a stable sort, highest
    overall score first. *)
Fixpoint insertByOverall (c : CandidateResult) (l : list CandidateResult)
  : list CandidateResult :=
  match l with
  | [] => [c]
  | h :: t =>
      if Qle_bool (overall_match_score (scores h))
                  (overall_match_score (scores c))
      then c :: h :: t
      else h :: insertByOverall c t
  end.

Definition sortByOverall (l : list CandidateResult) : list CandidateResult :=
  fold_right insertByOverall [] l.

Definition setRank (entry : CandidateResult * nat) : CandidateResult :=
  let '(c, index) := entry in
  mkCandidateResult (Z.of_nat index + 1) (parsed_resume c) (scores c)
    (reasoning c) (strengths c) (weaknesses c) (missing_skills c)
    (fit_assessment c).

Definition defaultJobDescription : ParsedJobDescription :=
  mkParsedJobDescription "N/A" [] [] 0 "N/A" "N/A".

Definition defaultRecommendation : FinalRecommendation :=
  mkFinalRecommendation "N/A" (Some "Final recommendation was not provided.").

Definition malformed : string :=
  "The AI's analysis was incomplete or malformed. It failed to return candidate data.".

(** [inl message] is the thrown [Error]. *)
Definition processAnalysis (rawResult : option RawAnalysisResult)
  : string + AnalysisResult :=
  match rawResult with
  | None => inl malformed
  | Some rawResult =>
      match candidate_analysis rawResult with
      | None => inl malformed
      | Some analysis =>
          let candidatesWithOverall := map withOverall analysis in
          let sortedCandidates := sortByOverall candidatesWithOverall in
          let rankedCandidates :=
            map setRank (combine sortedCandidates
                                 (seq 0 (List.length sortedCandidates))) in
          inr (mkAnalysisResult
                 (orDefault (raw_parsed_job_description rawResult)
                            defaultJobDescription)
                 rankedCandidates
                 (orDefault (raw_bias_analysis rawResult) (mkBiasAnalysis []))
                 (orDefault (raw_final_recommendation rawResult)
                            defaultRecommendation))
      end
  end.

(** ** The overall score in binary64 *)

(** The exponent of the leading bit: [2 ^ ilog2 x <= x < 2 ^ (ilog2 x + 1)]
    for positive [x]. *)
Definition ilog2 (x : Q) : Z :=
  let k := (Z.log2 (Qnum x) - Z.log2 (Zpos (Qden x)))%Z in
  if Qle_bool (2 ^ k) x then k else (k - 1)%Z.

(** The nearest integer, a tie going to the even one. *)
Definition roundHalfEven (t : Q) : Z :=
  let f := Qfloor t in
  match Qcompare (t - inject_Z f) (1 # 2) with
  | Lt => f
  | Gt => (f + 1)%Z
  | Eq => if Z.even f then f else (f + 1)%Z
  end.

(** The binary64 number nearest to [x], a tie going to the even mantissa:
    53 bits of mantissa, the least exponent -1074. Overflow is left out: the
    scores stay below 128. *)
Definition fl (x : Q) : Q :=
  if Qeq_bool x 0 then 0
  else
    let e := Z.max (ilog2 (Qabs x) - 52) (-1074) in
    inject_Z (roundHalfEven (x / 2 ^ e)) * 2 ^ e.

(** [x * y] and [x + y] on numbers. *)
Definition mul64 (x y : Q) : Q := fl (x * y).
Definition add64 (x y : Q) : Q := fl (x + y).

(** [overall_match_score] as the arithmetic of the language computes it:
    the decimal literals are read as the nearest binary64 numbers, every
    product and every sum is rounded. *)
Definition overall_match_score_binary64 (candidate : UnrankedCandidateResult)
  : Q :=
  let scores := orDefault (raw_scores candidate) emptyScores in
  let semantic := clampScore (raw_semantic_relevance_score scores) in
  let skill := clampScore (raw_skill_match_score scores) in
  let experience := clampScore (raw_experience_match_score scores) in
  let education := clampScore (raw_education_match_score scores) in
  add64 (add64 (add64 (mul64 semantic (fl 0.45)) (mul64 skill (fl 0.30)))
               (mul64 experience (fl 0.20)))
        (mul64 education (fl 0.05)).

(** ** The screening form *)

(** A file picked or dropped by the user: what the form reads of it. *)
Record File := mkFile { fileName : string; fileSize : Z }.

(** [existingFile.name === file.name && existingFile.size === file.size] *)
Definition sameFile (existingFile file : File) : bool :=
  String.eqb (fileName existingFile) (fileName file)
  && (fileSize existingFile =? fileSize file)%Z.

(** [resumeFiles] is the list the handler closed over, [prevFiles] the list
    the state update starts from; [files] is [None] for [null]. *)
Definition handleResumeFiles (resumeFiles : list File)
           (files : option (list File)) (prevFiles : list File) : list File :=
  match files with
  | Some files =>
      let newFiles :=
        filter (fun file =>
                  negb (existsb (fun existingFile => sameFile existingFile file)
                                resumeFiles))
               files in
      (prevFiles ++ newFiles)%list
  | None => prevFiles
  end.

(** [prevFiles.filter((_, i) => i !== index)] *)
Definition handleRemoveResumeFile (index : nat) (prevFiles : list File)
  : list File :=
  map fst (filter (fun entry => negb (snd entry =? index)%nat)
                  (withIndex prevFiles)).

Definition handleClearAllResumes (prevFiles : list File) : list File := [].

(** The progress shown once [completedResumes] of [totalResumes] resumes
    are analysed. *)
Definition resumeProgress (completedResumes totalResumes : nat) : Z :=
  (5 + Math_round ((inject_Z (Z.of_nat completedResumes)
                    / inject_Z (Z.of_nat totalResumes)) * 90))%Z.

Section Filtering.

(** [String.prototype.toLowerCase] *)
Variable toLowerCase : string -> string.

(** [s.includes(sub)] *)
Definition includes (s sub : string) : bool :=
  match String.index 0 sub s with Some _ => true | None => false end.

(** [!searchTerm] on a string *)
Definition isEmptyString (s : string) : bool :=
  match s with EmptyString => true | _ => false end.

Definition candidateShown (filterScore : Q) (searchTerm : string)
           (candidate : CandidateResult) : bool :=
  let scoreMatch :=
    Qle_bool filterScore (overall_match_score (scores candidate)) in
  let searchLower := toLowerCase searchTerm in
  let searchMatch :=
    isEmptyString searchTerm
    || includes (toLowerCase (name (parsed_resume candidate))) searchLower
    || existsb (fun skill => includes (toLowerCase skill) searchLower)
               (skills (parsed_resume candidate)) in
  scoreMatch && searchMatch.

(** [result] is [None] before the first analysis. *)
Definition filteredCandidates (result : option AnalysisResult)
           (filterScore : Q) (searchTerm : string) : list CandidateResult :=
  match result with
  | Some result =>
      filter (candidateShown filterScore searchTerm) (ranked_candidates result)
  | None => []
  end.

End Filtering.

(** * Vocabulary of the properties *)

(** The weighted sum as the specification writes it. *)
Definition weightedOverall (semantic skill experience education : Q) : Q :=
  0.45 * semantic + 0.30 * skill + 0.20 * experience + 0.05 * education.

(** [candidate.scores || {}] *)
Definition rawOf (c : UnrankedCandidateResult) : UnrankedCandidateScores :=
  orDefault (raw_scores c) emptyScores.

(** The graphics state body text is painted with. *)
Definition bodyGState (fontStyle : string) (color : Color) (g : GState)
  : GState :=
  mkGState "helvetica" fontStyle FONT_SIZES_BODY color (fillColor g)
           (drawColor g).

(** The graphics state every footer is painted with. *)
Definition footerGState (g : GState) : GState :=
  mkGState "helvetica" "normal" FONT_SIZES_SMALL (rgb 150 150 150)
           (fillColor g) (drawColor g).

(** The footer of page [i]: the rule line and the centred page string. *)
Definition footerStamp (b : PdfBuilder) (totalPages i : nat) : list Painted :=
  let footerY := pageHeight b - FOOTER_HEIGHT in
  let g := footerGState (gstate (doc b)) in
  [ mkPainted i g (OpLine MARGIN footerY (pageWidth b - MARGIN) footerY);
    mkPainted i g (OpText (OneLine (pageStr i totalPages)) (pageWidth b / 2)
                          (footerY + 6) (Some AlignCenter) None) ].

(** [s] is the decimal numeral of [n]: it is read as a numeral that has no
    sign and no leading zero and whose value is [n]. *)
Definition decimalNumeral (s : string) (n : nat) : Prop :=
  exists d, NilZero.int_of_string s = Some d /\ Decimal.norm d = d /\
            Z.of_int d = Z.of_nat n.

(** [text] reads "Page i of N". *)
Definition readsPageOf (text : string) (i totalPages : nat) : Prop :=
  exists di dN, text = "Page " ++ di ++ " of " ++ dN /\
                decimalNumeral di i /\ decimalNumeral dN totalPages.

(** A footer on page [i]: the rule line and, centred below it, [text]. *)
Definition footerWith (b : PdfBuilder) (i : nat) (text : string)
  : list Painted :=
  let footerY := pageHeight b - FOOTER_HEIGHT in
  let g := footerGState (gstate (doc b)) in
  [ mkPainted i g (OpLine MARGIN footerY (pageWidth b - MARGIN) footerY);
    mkPainted i g (OpText (OneLine text) (pageWidth b / 2) (footerY + 6)
                          (Some AlignCenter) None) ].

(** The first pass of the styled section: everything up to and including
    the trailing gap after the first run of the content procedure. *)
Definition sectionFirstPass {E} (title : string) (content : World E -> World E)
           (w : World E) : World E :=
  let w := onBuilder (checkAndAddPage 15) w in
  let w := onBuilder (advance 5) w in
  let w := onBuilder (addSectionTitle title) w in
  let w := onBuilder (advance 2) w in
  let w := content w in
  onBuilder (advance 5) w.

(** The three offsets the section records on its way. *)
Definition sectionStartY (b : PdfBuilder) : Q := y (checkAndAddPage 15 b).

Definition sectionContentStartY (title : string) (b : PdfBuilder) : Q :=
  y (advance 2 (addSectionTitle title (advance 5 (checkAndAddPage 15 b)))).

Definition sectionEndY {E} (title : string) (content : World E -> World E)
           (w : World E) : Q :=
  y (fst (sectionFirstPass title content w)).

(** The content procedure with a call counter added to what it captured. *)
Definition counting {E} (content : World E -> World E)
           (w : World (E * nat)) : World (E * nat) :=
  let r := content (fst w, fst (snd w)) in
  (fst r, (snd r, S (snd (snd w)))).

(** Forgetting the counter. *)
Definition uncounted {E} (w : World (E * nat)) : World E :=
  (fst w, fst (snd w)).

(** The block renderers, as one type of requests. *)
Inductive Block :=
| Heading (text : string)
| Subheading (text : string)
| SectionTitle (text : string)
| BodyText (text : option string) (options : BodyTextOptions)
| BulletList (items : option (list string))
| ScoreGrid (s : CandidateScores)
| SummaryTable (candidates : list CandidateResult)
| Separator.

(** The band the cursor is meant to stay in. *)
Definition inBand (b : PdfBuilder) : Prop :=
  MARGIN <= y b /\ y b <= bottomLimit b.

(** A block of height [h] has room on an empty page. *)
Definition fits (b : PdfBuilder) (h : Q) : Prop := MARGIN + h <= bottomLimit b.

(** The page index never goes down, and the offset goes down only when the
    page index went up, that is, only across [addPage]. *)
Definition forwardOnly (b b' : PdfBuilder) : Prop :=
  (pageNumber b <= pageNumber b')%nat /\
  (pageNumber b' = pageNumber b -> y b <= y b').

(** A step that paints on the page that is current and turns no page:
    what it adds to the canvas all lands on that page. *)
Definition paintsOnPage (b b' : PdfBuilder) : Prop :=
  currentPage (doc b') = currentPage (doc b) /\
  exists ops,
    canvas (doc b') = (canvas (doc b) ++ ops)%list /\
    Forall (fun p => onPage p = currentPage (doc b)) ops.

(** A step that paints but leaves cursor and geometry alone. *)
Definition sameCursor (b b' : PdfBuilder) : Prop :=
  y b' = y b /\ pageHeight b' = pageHeight b /\ pageNumber b' = pageNumber b.

(** A step that reserves [h], paints, and advances by [d]. *)
Definition stepOk (h d : Q) (b b' : PdfBuilder) : Prop :=
  pageHeight b' = pageHeight b /\
  ((pageNumber b' = pageNumber b /\ y b' == y b + d /\
    y b + h <= bottomLimit b) \/
   (pageNumber b' = S (pageNumber b) /\ y b' == MARGIN + d)).

Section Blocks.

Variable splitTextToSize : Wrapper.

(** One request, rendered. *)
Definition render (blk : Block) : PdfBuilder -> PdfBuilder :=
  match blk with
  | Heading text => addHeader text
  | Subheading text => addSubheader text
  | SectionTitle text => addSectionTitle text
  | BodyText text options => addBodyText splitTextToSize text options
  | BulletList items => addBulletList splitTextToSize items
  | ScoreGrid s => addScoreGrid s
  | SummaryTable candidates => addSummaryTable splitTextToSize candidates
  | Separator => addSeparator
  end.



(** The height a block reserves with its one capacity check; a bullet list
    with items has no such single check, and an absent text none at all. *)
Definition reservedHeight (blk : Block) (b : PdfBuilder) : option Q :=
  match blk with
  | Heading _ => Some 20
  | Subheading _ => Some 15
  | SectionTitle _ => Some 10
  | BodyText (Some text) _ =>
      Some (textHeightOf (wrap splitTextToSize b text (contentWidth b)))
  | BodyText None _ => None
  | BulletList (Some (_ :: _)) => None
  | BulletList _ =>
      Some (textHeightOf (wrap splitTextToSize b "None listed"
                               (contentWidth b)))
  | ScoreGrid _ => Some 20
  | SummaryTable candidates => Some ((lengthQ candidates + 1) * rowHeight)
  | Separator => Some 10
  end.

End Blocks.


(** A content procedure that obeys the rule itself. *)
Definition forwardContent {E} (content : World E -> World E) : Prop :=
  forall w, forwardOnly (fst w) (fst (content w)).



(** The x-positions of the vertical rules: the margin plus the running sums
    of the column widths, the last column left out. *)
Definition ruleXs : list Q :=
  [MARGIN + 15; MARGIN + 15 + 85; MARGIN + 15 + 85 + 25;
   MARGIN + 15 + 85 + 25 + 25].

(** The grid laid over the painted rows: the border and the rules. It hangs
    from [top], is as wide as the content area and reaches down to
    [bottom]. *)
Definition tableGrid (top bottom width : Q) : list DrawOp :=
  OpRect MARGIN top width (bottom - top) Stroke
  :: map (fun x => OpLine x top x bottom) ruleXs.

(** The builder after each statement of [addStyledSection], in program
    order, starting with the state on entry. *)
Definition sectionStates {E} (title : string) (content : World E -> World E)
           (w : World E) : list (World E) :=
  let w1 := onBuilder (checkAndAddPage 15) w in
  let startY := y (fst w1) in
  let w2 := onBuilder (advance 5) w1 in
  let w3 := onBuilder (addSectionTitle title) w2 in
  let w4 := onBuilder (advance 2) w3 in
  let contentStartY := y (fst w4) in
  let w5 := content w4 in
  let w6 := onBuilder (advance 5) w5 in
  let endY := y (fst w6) in
  let w7 :=
    if spansPageBreak startY endY (pageHeight (fst w6)) then w6
    else
      let w := onBuilder (onDoc (Doc.setFillColor 243 244 246)) w6 in
      onBuilder (fun b => onDoc (Doc.rect MARGIN startY (contentWidth b)
                                          (endY - startY) Fill) b) w in
  let w8 := onBuilder (setY (contentStartY - 7)) w7 in
  let w9 := onBuilder (addSectionTitle title) w8 in
  let w10 := onBuilder (advance 2) w9 in
  let w11 := content w10 in
  let w12 := onBuilder (setY endY) w11 in
  [w; w1; w2; w3; w4; w5; w6; w7; w8; w9; w10; w11; w12].

(** Every two consecutive elements of a list are related. *)
Fixpoint chain {A} (R : A -> A -> Prop) (l : list A) : Prop :=
  match l with
  | a :: (a' :: _) as rest => R a a' /\ chain R rest
  | _ => True
  end.


(** The rule of C6 read statement by statement inside one styled section:
    between any two consecutive program points the page index does not
    drop, and the offset drops only if the page index rose. *)
Definition cursorNeverRetreats {E} (title : string)
           (content : World E -> World E) (w : World E) : Prop :=
  chain (fun s s' => forwardOnly (fst s) (fst s'))
        (sectionStates title content w).

(** The builder's page counter, the backend's page count and the page that
    is drawn on agree: there is at least one page and drawing goes to the
    last one. *)
Definition pagesInSync (b : PdfBuilder) : Prop :=
  (1 <= pageNumber b)%nat /\
  numberOfPages (doc b) = pageNumber b /\
  currentPage (doc b) = pageNumber b.

(** What every step of the engine does to the builder: geometry stays, the
    canvas only grows at its end, the page index does not drop, and pages
    stay in sync if they were. *)
Definition flows (b b' : PdfBuilder) : Prop :=
  pageWidth b' = pageWidth b /\
  pageHeight b' = pageHeight b /\
  contentWidth b' = contentWidth b /\
  (exists ops, canvas (doc b') = (canvas (doc b) ++ ops)%list) /\
  (pageNumber b <= pageNumber b')%nat /\
  (pagesInSync b -> pagesInSync b').

(** A content procedure that behaves like the engine's own steps. *)
Definition flowingContent {E} (content : World E -> World E) : Prop :=
  forall w, flows (fst w) (fst (content w)).

(** The overall score of a candidate. *)
Definition overallOf (c : CandidateResult) : Q := overall_match_score (scores c).

(** [a] may stand before [b] in the ranking. *)
Definition outranks (a b : CandidateResult) : Prop := overallOf b <= overallOf a.

(** A candidate with the rank taken off again. *)
Definition unranked (c : CandidateResult) : CandidateResult :=
  mkCandidateResult 0 (parsed_resume c) (scores c) (reasoning c) (strengths c)
    (weaknesses c) (missing_skills c) (fit_assessment c).

(** The candidates whose overall score equals [v]. *)
Definition tiedAt (v : Q) (l : list CandidateResult) : list CandidateResult :=
  filter (fun c => Qeq_bool (overallOf c) v) l.

(** [kept] is [l] with the elements that fail [P] struck out: the order and
    the repetitions of the others are as in [l]. *)
Inductive struckOut {A} (P : A -> Prop) : list A -> list A -> Prop :=
| struck_nil : struckOut P [] []
| struck_keep a l kept :
    P a -> struckOut P l kept -> struckOut P (a :: l) (a :: kept)
| struck_drop a l kept :
    ~ P a -> struckOut P l kept -> struckOut P (a :: l) kept.

(** [file] differs from every chosen file in name or in size. *)
Definition isNew (resumeFiles : list File) (file : File) : Prop :=
  forall existingFile, In existingFile resumeFiles ->
    fileName existingFile <> fileName file \/
    fileSize existingFile <> fileSize file.

(** * Inputs of the concrete runs *)

(** A backend that wraps like a typewriter: every character takes 2 units,
    and a line is cut when it is full. *)
Fixpoint chunks (fuel perLine : nat) (s : string) : list string :=
  match fuel with
  | O => [s]
  | S fuel =>
      if (String.length s <=? perLine)%nat then [s]
      else substring 0 perLine s
           :: chunks fuel perLine
                     (substring perLine (String.length s - perLine) s)
  end.

Definition typewriter : Wrapper :=
  fun _ text width =>
    chunks (String.length text) (Nat.max 1 (Z.to_nat (Qfloor (width / 2))))
           text.

Definition sampleResume (who : string) : ParsedResume :=
  mkParsedResume who "" "" [] 0 "" "" [] [] "".

Definition sampleRawCandidate (who : string) (skill experience education
                                             semantic : option Q)
  : UnrankedCandidateResult :=
  mkUnrankedCandidateResult (sampleResume who)
    (Some (mkUnrankedCandidateScores skill experience education semantic))
    (Some "Solid match.") (Some ["React"]) None (Some []) (Some ["Good fit"]).

Definition sampleRaw : RawAnalysisResult :=
  mkRawAnalysisResult None
    (Some [ sampleRawCandidate "Ada" (Some 80) (Some 70) (Some 60) (Some 90);
            sampleRawCandidate "Bob" (Some 250) None (Some (-3)) (Some 100) ])
    None None.

Definition emptyResult : AnalysisResult :=
  mkAnalysisResult defaultJobDescription [] (mkBiasAnalysis [])
                   defaultRecommendation.

(** What [processAnalysis] makes of a raw result. *)
Definition analysed (raw : RawAnalysisResult) : AnalysisResult :=
  match processAnalysis (Some raw) with
  | inr result => result
  | inl _ => emptyResult
  end.

Definition sampleResult : AnalysisResult := analysed sampleRaw.

Definition ada : UnrankedCandidateResult :=
  sampleRawCandidate "Ada" (Some 80) (Some 70) (Some 60) (Some 90).

Definition sampleCandidate : CandidateResult := withOverall ada.

(** A raw result with [n] candidates and the given bias flags. *)
Definition rawReport (n : nat) (flags : list BiasFlag) : RawAnalysisResult :=
  mkRawAnalysisResult None (Some (repeat ada n)) (Some (mkBiasAnalysis flags))
                      None.

(** What a step adds to the canvas: painting only ever appends. *)
Definition paintedBy (f : PdfBuilder -> PdfBuilder) (b : PdfBuilder)
  : list Painted :=
  skipn (List.length (canvas (doc b))) (canvas (doc (f b))).

Definition isFillRect (p : Painted) : bool :=
  match drawn p with OpRect _ _ _ _ Fill => true | _ => false end.

Definition isStrokeRect (p : Painted) : bool :=
  match drawn p with OpRect _ _ _ _ Stroke => true | _ => false end.

Definition isTextOf (s : string) (p : Painted) : bool :=
  match drawn p with
  | OpText (OneLine t) _ _ _ _ => String.eqb t s
  | _ => false
  end.

Definition today : string := "11/3/2026".

Definition thirtyOne : list CandidateResult :=
  ranked_candidates (analysed (rawReport 31 [])).

(** A text of 4800 characters, 54 lines on the typewriter. *)
Definition longText : string := String.concat "" (repeat "lorem ipsum " 400).

Definition recommendationStates : list (World unit) :=
  sectionStates "Final Recommendation"
                (onBuilder (renderRecommendation typewriter sampleResult))
                (newPdfBuilder, tt).

(** The builder as [generatePdf] hands it to the summary table, and as it
    hands it to the first styled section. *)
Definition reportBeforeTable (splitTextToSize : Wrapper)
           (today : string) (result : AnalysisResult) : PdfBuilder :=
  let b := newPdfBuilder in
  let b := addHeader "Job Applicant Screening Results" b in
  let b := advance 5 b in
  let b := addBodyText splitTextToSize
             (Some ("Role Analyzed: " ++ role (parsed_job_description result)))
             (mkOptions (Some "bold") None) b in
  let b := addBodyText splitTextToSize (Some ("Date Generated: " ++ today))
                       noOptions b in
  let b := addSeparator b in
  addSubheader "Candidate Summary" b.

Definition reportBeforeBias (splitTextToSize : Wrapper)
           (today : string) (result : AnalysisResult) : PdfBuilder :=
  let b := reportBeforeTable splitTextToSize today result in
  let b := addSummaryTable splitTextToSize (ranked_candidates result) b in
  let b := addPage b in
  let b := addSubheader "Detailed Candidate Analysis" b in
  let b := advance 5 b in
  let b := fold_left
             (addCandidateAndSeparator splitTextToSize
                (List.length (ranked_candidates result)))
             (withIndex (ranked_candidates result)) b in
  let b := checkAndAddPage 80 b in
  addSeparator b.

Definition biasSection (splitTextToSize : Wrapper)
           (result : AnalysisResult) (b : PdfBuilder) : PdfBuilder :=
  fst (addStyledSection "Bias Analysis Report"
         (onBuilder (renderBiasAnalysis splitTextToSize result)) (b, tt)).

(** Page, top and height of a painted rectangle, in lowest terms. *)
Definition rectOf (p : Painted) : option (nat * Q * Q) :=
  match drawn p with
  | OpRect _ top _ height _ => Some (onPage p, Qred top, Qred height)
  | _ => None
  end.

(** A report on 25 candidates, and one on no candidate with 18 bias
    flags. *)
Definition twentyFive : AnalysisResult := analysed (rawReport 25 []).

Definition eighteenFlags : AnalysisResult :=
  analysed
    (rawReport 0 (repeat (mkBiasFlag "Age-coded wording" "Age" "Low") 18)).

(** Files of the form; the last has the name of the first and another
    size. *)
Definition cvAda : File := mkFile "ada.pdf" 1200.
Definition cvBob : File := mkFile "bob.pdf" 3400.
Definition cvCyd : File := mkFile "cyd.docx" 560.
Definition cvAdaRevised : File := mkFile "ada.pdf" 1300.

(** Lower case on the letters A to Z. *)
Definition lowerAscii (c : ascii) : ascii :=
  let n := nat_of_ascii c in
  if ((65 <=? n) && (n <=? 90))%nat then ascii_of_nat (n + 32) else c.

Fixpoint asciiLowerCase (s : string) : string :=
  match s with
  | EmptyString => EmptyString
  | String c rest => String (lowerAscii c) (asciiLowerCase rest)
  end.

(** The candidate list of [sampleRaw]. *)
Definition sampleAnalysis : list UnrankedCandidateResult :=
  [ sampleRawCandidate "Ada" (Some 80) (Some 70) (Some 60) (Some 90);
    sampleRawCandidate "Bob" (Some 250) None (Some (-3)) (Some 100) ].

(** Three candidates of whom the first and the last come to the same
    overall score, 81.5, by different components. *)
Definition tiedAnalysis : list UnrankedCandidateResult :=
  [ sampleRawCandidate "Pat" (Some 80) (Some 70) (Some 60) (Some 90);
    sampleRawCandidate "Quinn" (Some 95) (Some 90) (Some 80) (Some 85);
    sampleRawCandidate "Ray" (Some 70) (Some 85) (Some 60) (Some 90) ].

Definition tiedRaw : RawAnalysisResult :=
  mkRawAnalysisResult None (Some tiedAnalysis) None None.

(** Semantic 60, skill 61, experience 62, education 76. *)
Definition eve : UnrankedCandidateResult :=
  sampleRawCandidate "Eve" (Some 61) (Some 62) (Some 76) (Some 60).

(** The weighted sum on the primitive binary64 numbers of the prover: the
    arithmetic JavaScript really performs. The literals are rounded to the
    nearest binary64 value, as the JavaScript parser rounds them. *)
Module Binary64.

Import PrimFloat.

#[warning="-inexact-float"]
Definition overallFloat (semantic skill experience education : float) : float :=
  ((semantic * 0.45) + (skill * 0.30) + (experience * 0.20)
   + (education * 0.05))%float.

(** The rational a finite binary64 number stands for. *)
Definition valueOf (f : float) : option Q :=
  match FloatOps.Prim2SF f with
  | SpecFloat.S754_zero _ => Some 0%Q
  | SpecFloat.S754_finite s m e =>
      Some ((if s then -1 else 1) * inject_Z (Z.pos m) * 2 ^ e)%Q
  | _ => None
  end.

(** An integer as a binary64 number. *)
Definition ofZ (z : Z) : float := of_uint63 (Uint63.of_Z z).

(** [f] stands for [x]. *)
Definition agree (f : float) (x : Q) : bool :=
  match valueOf f with
  | Some v => Qeq_bool v x
  | None => false
  end.

End Binary64.

(** A candidate with the given component scores. *)
Definition scored (semantic skill experience education : Q)
  : UnrankedCandidateResult :=
  sampleRawCandidate "" (Some skill) (Some experience) (Some education)
                     (Some semantic).

(** * Properties *)

(** ** Comparisons and cursor bookkeeping *)

Lemma gtb_true (a b : Q) : gtb a b = true <-> b < a.
Proof.
  unfold gtb. rewrite negb_true_iff.
  destruct (Qle_bool a b) eqn:E.
  - apply Qle_bool_iff in E. split; [discriminate|intro; lra].
  - split; [intros _|reflexivity].
    apply Qnot_le_lt. intro H. apply Qle_bool_iff in H. congruence.
Qed.

Lemma gtb_false (a b : Q) : gtb a b = false <-> a <= b.
Proof.
  unfold gtb. rewrite negb_false_iff. apply Qle_bool_iff.
Qed.

(** C1. [checkAndAddPage h] with [h] at most the remaining space leaves the
    builder (page index and offset included) as it was; with [h] above the
    remaining space it raises the page index by exactly one and puts the
    offset at the margin. *)
Theorem checkAndAddPage_spec (h : Q) (b : PdfBuilder) :
  (h <= remainingSpace b ->
     checkAndAddPage h b = b) /\
  (remainingSpace b < h ->
     pageNumber (checkAndAddPage h b) = S (pageNumber b) /\
     y (checkAndAddPage h b) = MARGIN).
Proof.
  unfold checkAndAddPage, remainingSpace. split; intro H.
  - assert (E : gtb (y b + h) (bottomLimit b) = false) by (apply gtb_false; lra).
    now rewrite E.
  - assert (E : gtb (y b + h) (bottomLimit b) = true) by (apply gtb_true; lra).
    rewrite E. unfold addPage. now destruct (0 <? pageNumber b)%nat.
Qed.

Lemma checkAndAddPage_cases (h : Q) (b : PdfBuilder) :
  (y b + h <= bottomLimit b /\ checkAndAddPage h b = b) \/
  (bottomLimit b < y b + h /\ checkAndAddPage h b = addPage b).
Proof.
  unfold checkAndAddPage.
  destruct (gtb (y b + h) (bottomLimit b)) eqn:E.
  - right. split; [now apply gtb_true|reflexivity].
  - left. split; [now apply gtb_false|reflexivity].
Qed.

Lemma pageNumber_addPage b : pageNumber (addPage b) = S (pageNumber b).
Proof. unfold addPage. now destruct (0 <? pageNumber b)%nat. Qed.

Lemma pageHeight_addPage b : pageHeight (addPage b) = pageHeight b.
Proof. unfold addPage. now destruct (0 <? pageNumber b)%nat. Qed.

Lemma pageHeight_checkAndAddPage h b :
  pageHeight (checkAndAddPage h b) = pageHeight b.
Proof.
  destruct (checkAndAddPage_cases h b) as [[_ ->]|[_ ->]];
    [reflexivity|apply pageHeight_addPage].
Qed.

Lemma pageNumber_checkAndAddPage_le h b :
  (pageNumber b <= pageNumber (checkAndAddPage h b))%nat.
Proof.
  destruct (checkAndAddPage_cases h b) as [[_ ->]|[_ ->]];
    [|rewrite pageNumber_addPage]; lia.
Qed.

(** After the capacity check the cursor has not moved unless a page was
    begun, and then it stands at the margin. *)
Lemma checkAndAddPage_offset h b :
  (y (checkAndAddPage h b) = y b /\
   pageNumber (checkAndAddPage h b) = pageNumber b /\
   y b + h <= bottomLimit b) \/
  (y (checkAndAddPage h b) = MARGIN /\
   pageNumber (checkAndAddPage h b) = S (pageNumber b)).
Proof.
  destruct (checkAndAddPage_cases h b) as [[H ->]|[_ ->]].
  - left. repeat split. exact H.
  - right. split; [reflexivity|apply pageNumber_addPage].
Qed.

(** ** Score post-processing *)

Lemma Math_min_spec (a b : Q) :
  (a <= b /\ Math_min a b = a) \/ (b < a /\ Math_min a b = b).
Proof.
  unfold Math_min. destruct (Qle_bool a b) eqn:E.
  - left. split; [now apply Qle_bool_iff|reflexivity].
  - right. split; [|reflexivity].
    apply Qnot_le_lt. intro H. apply Qle_bool_iff in H. congruence.
Qed.

Lemma Math_max_spec (a b : Q) :
  (a <= b /\ Math_max a b = b) \/ (b < a /\ Math_max a b = a).
Proof.
  unfold Math_max. destruct (Qle_bool a b) eqn:E.
  - left. split; [now apply Qle_bool_iff|reflexivity].
  - right. split; [|reflexivity].
    apply Qnot_le_lt. intro H. apply Qle_bool_iff in H. congruence.
Qed.

(** The clamp: a value below 0 becomes 0, a value of 100 or more becomes
    100, and a value in between is kept. *)
Lemma clampScore_spec (x : option Q) :
  (orZero x < 0 /\ clampScore x = 0) \/
  (0 <= orZero x < 100 /\ clampScore x = orZero x) \/
  (100 <= orZero x /\ clampScore x = 100).
Proof.
  unfold clampScore.
  destruct (Math_min_spec 100 (orZero x)) as [[H1 ->]|[H1 ->]].
  - right. right. split; [exact H1|].
    destruct (Math_max_spec 0 100) as [[_ ->]|[H2 _]]; [reflexivity|lra].
  - destruct (Math_max_spec 0 (orZero x)) as [[H2 ->]|[H2 ->]].
    + right. left. now repeat split.
    + left. now split.
Qed.

Lemma clampScore_range (x : option Q) : 0 <= clampScore x <= 100.
Proof.
  destruct (clampScore_spec x) as [[_ ->]|[[H ->]|[_ ->]]]; lra.
Qed.

Lemma Forall_insertByOverall (P : CandidateResult -> Prop) c l :
  P c -> Forall P l -> Forall P (insertByOverall c l).
Proof.
  intros Hc Hl. induction Hl as [|h t Hh Ht IH]; simpl.
  - now constructor.
  - destruct (Qle_bool _ _); repeat constructor; assumption.
Qed.

Lemma Forall_sortByOverall (P : CandidateResult -> Prop) l :
  Forall P l -> Forall P (sortByOverall l).
Proof.
  induction 1 as [|h t Hh Ht IH]; simpl; [constructor|].
  now apply Forall_insertByOverall.
Qed.

Lemma Forall_ranked (P : CandidateScores -> Prop) l n :
  Forall (fun c => P (scores c)) l ->
  Forall (fun c => P (scores c)) (map setRank (combine l (seq n (List.length l)))).
Proof.
  intro H. revert n. induction H as [|h t Hh Ht IH]; intro n; simpl.
  - constructor.
  - constructor; [exact Hh|apply IH].
Qed.

(** ** Rounding to binary64 *)

Lemma roundHalfEven_error t :
  t - (1 # 2) <= inject_Z (roundHalfEven t) /\
  inject_Z (roundHalfEven t) <= t + (1 # 2).
Proof.
  unfold roundHalfEven.
  pose proof (Qfloor_le t) as Hlo. pose proof (Qlt_floor t) as Hhi.
  rewrite inject_Z_plus in Hhi. change (inject_Z 1) with 1 in Hhi.
  destruct (Qcompare_spec (t - inject_Z (Qfloor t)) (1 # 2)) as [E|E|E].
  - destruct (Z.even (Qfloor t)); rewrite ?inject_Z_plus;
      change (inject_Z 1) with 1; split; lra.
  - split; lra.
  - rewrite inject_Z_plus. change (inject_Z 1) with 1. split; lra.
Qed.

Lemma pow2_pos k : 0 < 2 ^ k.
Proof. apply Qpower_0_lt. reflexivity. Qed.

Lemma pow2_succ k : 2 ^ (k + 1) == 2 * 2 ^ k.
Proof. rewrite Qpower_plus by discriminate. change (2 ^ 1) with 2. ring. Qed.

Lemma ilog2_spec x :
  0 < x -> 2 ^ ilog2 x <= x /\ x < 2 ^ (ilog2 x + 1).
Proof.
  intro Hx. destruct x as [n d]. unfold ilog2. cbn [Qnum Qden].
  assert (Hn : (0 < n)%Z) by (unfold Qlt in Hx; cbn in Hx; lia).
  set (a := Z.log2 n). set (b := Z.log2 (Z.pos d)).
  destruct (Z.log2_spec n Hn) as (Ha1 & Ha2). fold a in Ha1, Ha2.
  destruct (Z.log2_spec (Z.pos d) eq_refl) as (Hb1 & Hb2). fold b in Hb1, Hb2.
  assert (Ha0 : (0 <= a)%Z) by apply Z.log2_nonneg.
  assert (Hb0 : (0 <= b)%Z) by apply Z.log2_nonneg.
  assert (Ex : n # d == inject_Z n / inject_Z (Z.pos d)) by apply Qmake_Qdiv.
  assert (Hd : 0 < inject_Z (Z.pos d)) by reflexivity.
  assert (HA1 : 2 ^ a <= inject_Z n)
    by (rewrite <- (Zpower_Qpower 2 a Ha0), <- Zle_Qle; exact Ha1).
  assert (HA2 : inject_Z n < 2 * 2 ^ a).
  { rewrite <- pow2_succ.
    rewrite <- (Zpower_Qpower 2 (a + 1)) by lia. rewrite <- Zlt_Qlt.
    replace (a + 1)%Z with (Z.succ a) by lia. exact Ha2. }
  assert (HB1 : 2 ^ b <= inject_Z (Z.pos d))
    by (rewrite <- (Zpower_Qpower 2 b Hb0), <- Zle_Qle; exact Hb1).
  assert (HB2 : inject_Z (Z.pos d) < 2 * 2 ^ b).
  { rewrite <- pow2_succ.
    rewrite <- (Zpower_Qpower 2 (b + 1)) by lia. rewrite <- Zlt_Qlt.
    replace (b + 1)%Z with (Z.succ b) by lia. exact Hb2. }
  pose proof (pow2_pos a) as Pa. pose proof (pow2_pos b) as Pb.
  assert (Ek : 2 ^ (a - b) == 2 ^ a / 2 ^ b)
    by (apply Qpower_minus; discriminate).
  assert (Plo : 2 ^ (a - b) < 2 * (n # d)).
  { rewrite Ek, Ex. apply Qlt_shift_div_r; [exact Pb|].
    setoid_replace (2 * (inject_Z n / inject_Z (Z.pos d)) * 2 ^ b)
      with (inject_Z n * (2 * 2 ^ b / inject_Z (Z.pos d)))
      by (field; lra).
    assert (1 < 2 * 2 ^ b / inject_Z (Z.pos d))
      by (apply Qlt_shift_div_l; [exact Hd|lra]).
    nra. }
  assert (Phi : (n # d) < 2 * 2 ^ (a - b)).
  { rewrite Ek, Ex. apply Qlt_shift_div_r; [exact Hd|].
    setoid_replace (2 * (2 ^ a / 2 ^ b) * inject_Z (Z.pos d))
      with (2 * 2 ^ a * (inject_Z (Z.pos d) / 2 ^ b))
      by (field; lra).
    assert (1 <= inject_Z (Z.pos d) / 2 ^ b)
      by (apply Qle_shift_div_l; [exact Pb|lra]).
    nra. }
  destruct (Qle_bool (2 ^ (a - b)) (n # d)) eqn:E.
  - apply Qle_bool_iff in E. split; [exact E|]. rewrite pow2_succ. exact Phi.
  - assert (Hlt : (n # d) < 2 ^ (a - b)).
    { apply Qnot_le_lt. intro H. apply Qle_bool_iff in H. congruence. }
    replace (a - b - 1 + 1)%Z with (a - b)%Z by lia.
    split; [|exact Hlt].
    assert (E2 : 2 ^ (a - b) == 2 * 2 ^ (a - b - 1)).
    { rewrite <- pow2_succ. now replace (a - b - 1 + 1)%Z with (a - b)%Z by lia. }
    rewrite E2 in Plo. lra.
Qed.

Lemma ilog2_below x k : 0 < x -> x < 2 ^ (k + 1) -> (ilog2 x <= k)%Z.
Proof.
  intros Hx Hk. destruct (ilog2_spec x Hx) as (Hlo & _).
  assert (H : 2 ^ ilog2 x < 2 ^ (k + 1)) by lra.
  apply Qpower_lt_compat_l_inv in H; [lia|reflexivity].
Qed.

(** Below 128 a number is at most [2 ^ -47] away from its binary64
    rounding. *)
Lemma fl_error x :
  Qabs x < 128 ->
  x - (1 # 140737488355328) <= fl x /\ fl x <= x + (1 # 140737488355328).
Proof.
  intro Hx. unfold fl. destruct (Qeq_bool x 0) eqn:E0.
  - apply Qeq_bool_iff in E0. rewrite E0. split; discriminate.
  - assert (Hne : ~ x == 0) by (intro H; apply Qeq_bool_iff in H; congruence).
    assert (Hpos : 0 < Qabs x).
    { apply Qabs_case; intro H; apply Qle_lt_or_eq in H; destruct H as [L|E];
        try lra; exfalso; apply Hne; lra. }
    assert (Hl : (ilog2 (Qabs x) <= 6)%Z)
      by (apply ilog2_below; [exact Hpos|exact Hx]).
    set (e := Z.max (ilog2 (Qabs x) - 52) (-1074)).
    assert (He : (e <= -46)%Z) by lia.
    assert (HP : 2 ^ e <= 1 # 70368744177664).
    { change (1 # 70368744177664) with (2 ^ (-46)).
      apply Qpower_le_compat_l; [exact He|discriminate]. }
    pose proof (pow2_pos e) as HP0.
    destruct (roundHalfEven_error (x / 2 ^ e)) as (Rlo & Rhi).
    set (R := inject_Z (roundHalfEven (x / 2 ^ e))) in *.
    assert (Ex : x == x / 2 ^ e * 2 ^ e) by (field; lra).
    set (t := x / 2 ^ e) in *. set (P := 2 ^ e) in *.
    assert (H1 : (R - t + (1 # 2)) * P >= 0) by (apply Qmult_le_0_compat; lra).
    assert (H2 : (t + (1 # 2) - R) * P >= 0) by (apply Qmult_le_0_compat; lra).
    split; lra.
Qed.

Lemma fl_error_from lo hi x :
  lo <= x -> x <= hi -> -128 < lo -> hi < 128 ->
  lo - (1 # 140737488355328) <= fl x /\ fl x <= hi + (1 # 140737488355328).
Proof.
  intros H1 H2 H3 H4. destruct (fl_error x) as (A & B).
  - apply Qabs_case; intros; lra.
  - split; lra.
Qed.

Ltac below128 := apply Qabs_case; intros; lra.

Lemma weighted_sum_in_binary64 (a b c d : Q) :
  0 <= a <= 100 -> 0 <= b <= 100 -> 0 <= c <= 100 -> 0 <= d <= 100 ->
  Qabs (add64 (add64 (add64 (mul64 a (fl 0.45)) (mul64 b (fl 0.30)))
                     (mul64 c (fl 0.20)))
              (mul64 d (fl 0.05))
        - weightedOverall a b c d)
  <= 1 # 17592186044416.
Proof.
  intros Ha Hb Hc Hd. unfold add64, mul64, weightedOverall.
  assert (K45 : fl 0.45 = 8106479329266893 # 18014398509481984)
    by (vm_compute; reflexivity).
  assert (K30 : fl 0.30 = 5404319552844595 # 18014398509481984)
    by (vm_compute; reflexivity).
  assert (K20 : fl 0.20 = 7205759403792794 # 36028797018963968)
    by (vm_compute; reflexivity).
  assert (K05 : fl 0.05 = 7205759403792794 # 144115188075855872)
    by (vm_compute; reflexivity).
  rewrite K45, K30, K20, K05. clear K45 K30 K20 K05.
  destruct (fl_error (a * (8106479329266893 # 18014398509481984)))
    as (A1 & A2); [below128|].
  set (p1 := fl (a * _)) in *.
  destruct (fl_error (b * (5404319552844595 # 18014398509481984)))
    as (B1 & B2); [below128|].
  set (p2 := fl (b * _)) in *.
  destruct (fl_error (c * (7205759403792794 # 36028797018963968)))
    as (C1 & C2); [below128|].
  set (p3 := fl (c * _)) in *.
  destruct (fl_error (d * (7205759403792794 # 144115188075855872)))
    as (D1 & D2); [below128|].
  set (p4 := fl (d * _)) in *.
  destruct (fl_error (p1 + p2)) as (S1 & S2); [below128|].
  set (s1 := fl (p1 + p2)) in *.
  destruct (fl_error (s1 + p3)) as (T1 & T2); [below128|].
  set (s2 := fl (s1 + p3)) in *.
  destruct (fl_error (s2 + p4)) as (U1 & U2); [below128|].
  set (s3 := fl (s2 + p4)) in *.
  apply Qabs_case; intros; lra.
Qed.

(** C8, as the code has it. Each of the four component scores of a
    candidate is the clamp to [0,100] of the raw component, so it lies in
    [0,100]. The overall score the code computes is the weighted sum
    0.45 x semantic + 0.30 x skill + 0.20 x experience + 0.05 x education
    of the clamped components with every product and sum rounded to
    binary64: it is within 2^-44 of the exact sum, which is the value the
    embedding carries, and raw scores (90, 80, 70, 60) give 81.5 with the
    rounding too. *)
Theorem overall_is_weighted_sum_up_to_rounding (c : UnrankedCandidateResult) :
  let s := scores (withOverall c) in
  let exact :=
    weightedOverall (semantic_relevance_score s) (skill_match_score s)
                    (experience_match_score s) (education_match_score s) in
  semantic_relevance_score s
    = clampScore (raw_semantic_relevance_score (rawOf c)) /\
  skill_match_score s = clampScore (raw_skill_match_score (rawOf c)) /\
  experience_match_score s
    = clampScore (raw_experience_match_score (rawOf c)) /\
  education_match_score s = clampScore (raw_education_match_score (rawOf c)) /\
  Forall (fun v => 0 <= v <= 100)
         [semantic_relevance_score s; skill_match_score s;
          experience_match_score s; education_match_score s] /\
  Qabs (overall_match_score_binary64 c - exact) <= 1 # 17592186044416 /\
  overall_match_score s == exact /\
  (raw_scores c = Some (mkUnrankedCandidateScores (Some 80) (Some 70) (Some 60)
                                                   (Some 90)) ->
   overall_match_score_binary64 c == 81.5).
Proof.
  cbv zeta. repeat (split; [reflexivity|]). split; [|split; [|split]].
  - repeat constructor; apply clampScore_range.
  - unfold overall_match_score_binary64, withOverall. cbv zeta.
    cbn [scores semantic_relevance_score skill_match_score
         experience_match_score education_match_score].
    apply weighted_sum_in_binary64; apply clampScore_range.
  - unfold withOverall, weightedOverall. cbn [scores overall_match_score
      semantic_relevance_score skill_match_score experience_match_score
      education_match_score]. ring.
  - intro H. unfold overall_match_score_binary64. rewrite H.
    vm_compute. reflexivity.
Qed.

(** C10. Whatever the raw component scores are, present or not, every
    candidate that [processAnalysis] returns has an overall score within
    [0,100]. *)
Theorem overall_within_0_100 (rawResult : option RawAnalysisResult)
        (result : AnalysisResult) :
  processAnalysis rawResult = inr result ->
  Forall (fun c => 0 <= overall_match_score (scores c) <= 100)
         (ranked_candidates result).
Proof.
  unfold processAnalysis.
  destruct rawResult as [raw|]; [|discriminate].
  destruct (candidate_analysis raw) as [analysis|]; [|discriminate].
  intro H. injection H as <-. cbn [ranked_candidates].
  apply (Forall_ranked (fun s => 0 <= overall_match_score s <= 100)).
  apply Forall_sortByOverall. apply Forall_forall.
  intros c Hc. apply in_map_iff in Hc. destruct Hc as [u [<- _]].
  unfold withOverall. cbn [scores overall_match_score].
  pose proof (clampScore_range (raw_semantic_relevance_score (rawOf u))).
  pose proof (clampScore_range (raw_skill_match_score (rawOf u))).
  pose proof (clampScore_range (raw_experience_match_score (rawOf u))).
  pose proof (clampScore_range (raw_education_match_score (rawOf u))).
  unfold rawOf in *. lra.
Qed.

(** ** The layout engine *)

Section EngineFacts.

Variable splitTextToSize : Wrapper.

(** What [addBodyText] does to a present text, as one equation: the
    capacity check, one text primitive, the advance. *)
Lemma addBodyText_present text options b :
  let fontStyle := orDefault (optFontStyle options) "normal" in
  let color := orDefault (optColor options) (rgb 75 85 99) in
  let textLines := wrap splitTextToSize b text (contentWidth b) in
  let b0 := checkAndAddPage (textHeightOf textLines) b in
  let b' := addBodyText splitTextToSize (Some text) options b in
  canvas (doc b') =
    (canvas (doc b0) ++
      [mkPainted (currentPage (doc b0))
                 (bodyGState fontStyle color (gstate (doc b0)))
                 (OpText (ManyLines textLines) MARGIN (y b0) None
                         (Some LINE_HEIGHT_MULTIPLIER))])%list /\
  y b' = y b0 + textHeightOf textLines /\
  pageNumber b' = pageNumber b0 /\
  pageHeight b' = pageHeight b0.
Proof.
  cbv zeta. unfold addBodyText.
  destruct (orDefault (optColor options) (rgb 75 85 99)) as [r g bl].
  now repeat split.
Qed.

(** C9. An absent body text renders nothing: the builder, and with it the
    canvas and the cursor, comes back as it went in. An empty or absent
    bullet list renders the one body text "None listed" in italics: after
    the capacity check exactly one text primitive is painted, and where
    the text wraps to a single line the cursor advances by one line. *)
Theorem absent_text_and_empty_list options items b :
  addBodyText splitTextToSize None options b = b /\
  (items = None \/ items = Some [] ->
   let textLines := wrap splitTextToSize b "None listed" (contentWidth b) in
   let b0 := checkAndAddPage (textHeightOf textLines) b in
   let b' := addBulletList splitTextToSize items b in
   canvas (doc b') =
     (canvas (doc b0) ++
       [mkPainted (currentPage (doc b0))
                  (bodyGState "italic" (rgb 75 85 99) (gstate (doc b0)))
                  (OpText (ManyLines textLines) MARGIN (y b0) None
                          (Some LINE_HEIGHT_MULTIPLIER))])%list /\
   y b' = y b0 + textHeightOf textLines /\
   (textLines = ["None listed"] -> y b' == y b0 + 5.29167)).
Proof.
  split; [reflexivity|].
  intros Hitems. cbv zeta.
  assert (E : addBulletList splitTextToSize items b =
              addBodyText splitTextToSize (Some "None listed")
                          (mkOptions (Some "italic") None) b)
    by (destruct Hitems as [-> | ->]; reflexivity).
  rewrite E.
  destruct (addBodyText_present "None listed"
              (mkOptions (Some "italic") None) b) as (Hc & Hy & _).
  cbv zeta in Hc, Hy. cbn [orDefault optFontStyle optColor] in Hc.
  split; [exact Hc|]. split; [exact Hy|].
  intro Hl. rewrite Hy, Hl. apply Qplus_inj_l. reflexivity.
Qed.

(** *** Footers *)

Lemma setPage_in_range i d :
  (1 <= i <= numberOfPages d)%nat ->
  Doc.setPage i d =
    mkDoc (pageSizeWidth d) (pageSizeHeight d) (numberOfPages d) i (gstate d)
          (canvas d).
Proof.
  intros [H1 H2]. unfold Doc.setPage. apply Nat.leb_le in H1, H2.
  now rewrite H1, H2.
Qed.

Lemma onDoc_setPage i b :
  (1 <= i <= numberOfPages (doc b))%nat ->
  onDoc (Doc.setPage i) b =
    mkBuilder (mkDoc (pageSizeWidth (doc b)) (pageSizeHeight (doc b))
                     (numberOfPages (doc b)) i (gstate (doc b))
                     (canvas (doc b)))
              (y b) (pageWidth b) (pageHeight b) (contentWidth b)
              (pageNumber b).
Proof. intro H. unfold onDoc. now rewrite (setPage_in_range _ _ H). Qed.

(** Reduction of the builder and backend plumbing, innermost first. *)
Ltac plumbing :=
  cbv beta iota zeta delta
      [onDoc setY advance setPageNumber onBuilder fst snd
       Doc.line Doc.text Doc.rect Doc.paint Doc.setFont Doc.setFontSize
       Doc.setTextColor Doc.setFillColor Doc.setDrawColor Doc.withGState
       doc y pageWidth pageHeight contentWidth pageNumber pageSizeWidth
       pageSizeHeight numberOfPages currentPage gstate canvas fontName
       fontStyle fontSize textColor fillColor drawColor].

Lemma addFooter_in_range totalPages b i :
  (1 <= i <= numberOfPages (doc b))%nat ->
  addFooter totalPages b i =
    mkBuilder
      (mkDoc (pageSizeWidth (doc b)) (pageSizeHeight (doc b))
             (numberOfPages (doc b)) i (footerGState (gstate (doc b)))
             (canvas (doc b) ++ footerStamp b totalPages i))
      (y b) (pageWidth b) (pageHeight b) (contentWidth b) (pageNumber b).
Proof.
  intro H. cbv beta delta [addFooter]. rewrite (onDoc_setPage _ _ H).
  destruct b as [[w h n cp g cv] y0 pw ph cw pn].
  cbv beta delta [footerStamp footerGState]. plumbing.
  rewrite <- app_assoc. reflexivity.
Qed.

Lemma footerStamp_ext b b' totalPages i :
  pageHeight b' = pageHeight b -> pageWidth b' = pageWidth b ->
  footerGState (gstate (doc b')) = footerGState (gstate (doc b)) ->
  footerStamp b' totalPages i = footerStamp b totalPages i.
Proof. unfold footerStamp. now intros -> -> ->. Qed.

Lemma addFooters_canvas totalPages l : forall b,
  Forall (fun i => (1 <= i <= numberOfPages (doc b))%nat) l ->
  let b' := fold_left (addFooter totalPages) l b in
  canvas (doc b')
    = (canvas (doc b) ++ flat_map (footerStamp b totalPages) l)%list /\
  numberOfPages (doc b') = numberOfPages (doc b) /\
  y b' = y b /\ pageNumber b' = pageNumber b.
Proof.
  induction l as [|i l IH]; intros b Hl; cbv zeta.
  - cbn. now rewrite app_nil_r.
  - inversion Hl as [|? ? Hi Hl']; subst.
    cbn [fold_left flat_map]. rewrite (addFooter_in_range _ _ _ Hi).
    match goal with |- context [fold_left _ l ?b1] => set (b1' := b1) end.
    destruct (IH b1') as (Hc & Hn & Hy & Hp); [exact Hl'|].
    cbv zeta in Hc. rewrite Hc, Hn, Hy, Hp. subst b1'.
    cbn [doc canvas numberOfPages y pageNumber].
    repeat split. rewrite <- app_assoc. do 2 apply (f_equal (app _)).
    apply flat_map_ext. intro j. now apply footerStamp_ext.
Qed.

Lemma length_footers b totalPages l :
  List.length (flat_map (footerStamp b totalPages) l) = (2 * List.length l)%nat.
Proof.
  induction l as [|i t IH]; [reflexivity|].
  cbn [flat_map footerStamp List.length app]. rewrite IH. lia.
Qed.

Lemma stringOfNat_decimal n : decimalNumeral (stringOfNat n) n.
Proof.
  unfold decimalNumeral, stringOfNat, stringOfZ.
  set (d := Z.to_int (Z.of_nat n)).
  assert (Hn : Decimal.norm d = d).
  { unfold d. rewrite <- (DecimalZ.of_to (Z.of_nat n)) at 2.
    symmetry. apply DecimalZ.to_of. }
  exists d. split; [|split; [exact Hn|apply DecimalZ.of_to]].
  apply NilZero.isi; intro E; rewrite E in Hn; discriminate.
Qed.

Lemma decimalNumeral_unique s s' n :
  decimalNumeral s n -> decimalNumeral s' n -> s = s'.
Proof.
  intros (d & Hp & Hn & Hv) (d' & Hp' & Hn' & Hv').
  apply NilZero.sis in Hp. apply NilZero.sis in Hp'. subst s s'.
  f_equal. rewrite <- Hn, <- Hn'. apply DecimalZ.of_inj. congruence.
Qed.

Lemma pageStr_reads i totalPages : readsPageOf (pageStr i totalPages) i totalPages.
Proof.
  exists (stringOfNat i), (stringOfNat totalPages).
  split; [reflexivity|]. split; apply stringOfNat_decimal.
Qed.

(** The wording is pinned: a text that reads "Page i of N" is that string
    and no other. *)
Lemma readsPageOf_unique text text' i totalPages :
  readsPageOf text i totalPages -> readsPageOf text' i totalPages ->
  text = text'.
Proof.
  intros (di & dN & -> & Hi & HN) (di' & dN' & -> & Hi' & HN').
  now rewrite (decimalNumeral_unique _ _ _ Hi Hi'),
              (decimalNumeral_unique _ _ _ HN HN').
Qed.

(** C7. For a document of N pages the finalizer adds, after everything
    already on the canvas and without touching it, exactly the N footers
    of pages 1..N in that order, each a rule line and a centred text on
    page i; the text is the word Page, the decimal numeral of i, the word
    of and the decimal numeral of N, single blanks between them. It paints
    nothing else and adds no page. *)
Theorem footers_one_per_page b :
  let N := numberOfPages (doc b) in
  let b' := finalizeAndAddFooters b in
  exists label : nat -> string,
    canvas (doc b')
    = (canvas (doc b)
       ++ flat_map (fun i => footerWith b i (label i)) (seq 1 N))%list /\
    (forall i, readsPageOf (label i) i N) /\
    numberOfPages (doc b') = N /\
    List.length (flat_map (fun i => footerWith b i (label i)) (seq 1 N))
    = (2 * N)%nat.
Proof.
  cbv zeta. exists (fun i => pageStr i (numberOfPages (doc b))).
  unfold finalizeAndAddFooters, Doc.getNumberOfPages.
  destruct (addFooters_canvas (numberOfPages (doc b))
              (seq 1 (numberOfPages (doc b))) b) as (Hc & Hn & _).
  - apply Forall_forall. intros i Hi. apply in_seq in Hi. lia.
  - cbv zeta in Hc. split; [exact Hc|]. split; [|split; [exact Hn|]].
    + intro i. apply pageStr_reads.
    + change (fun i => footerWith b i (pageStr i (numberOfPages (doc b))))
        with (footerStamp b (numberOfPages (doc b))).
      now rewrite length_footers, length_seq.
Qed.

(** *** Styled section *)

(** C4. Whatever the content procedure is, one call of the styled section
    runs it exactly twice, in the branch that found a page break and in the
    branch that did not, and leaves the cursor at the offset recorded at the
    end of the first pass. *)
Theorem content_runs_twice_offset_forced {E} (title : string)
        (content : World E -> World E) (b : PdfBuilder) (e : E) (n : nat) :
  let r := addStyledSection title (counting content) (b, (e, n)) in
  snd (snd r) = (n + 2)%nat /\
  uncounted r = addStyledSection title content (b, e) /\
  y (fst (addStyledSection title content (b, e))) =
    sectionEndY title content (b, e).
Proof.
  cbv zeta.
  cbv beta delta [addStyledSection sectionEndY sectionFirstPass].
  cbv beta iota zeta delta [counting uncounted onBuilder fst snd].
  match goal with |- context [if ?c then _ else _] => destruct c end;
    repeat split; try reflexivity; lia.
Qed.

(** *** How a block moves the cursor *)

Lemma checked_block h d b b' :
  pageHeight b' = pageHeight (checkAndAddPage h b) ->
  pageNumber b' = pageNumber (checkAndAddPage h b) ->
  y b' == y (checkAndAddPage h b) + d ->
  stepOk h d b b'.
Proof.
  intros Hh Hp Hy. split.
  - now rewrite Hh, pageHeight_checkAndAddPage.
  - destruct (checkAndAddPage_offset h b) as [(E1 & E2 & E3)|(E1 & E2)];
      rewrite E1 in Hy; rewrite E2 in Hp; [left|right]; now repeat split.
Qed.

Lemma stepOk_inBand h d b b' :
  stepOk h d b b' -> 0 <= d -> d <= h -> fits b h -> inBand b -> inBand b'.
Proof.
  unfold stepOk, inBand, fits, bottomLimit.
  intros (Hh & [(_ & Hy & Hroom)|(_ & Hy)]) Hd Hdh Hfit (Hlo & Hhi);
    rewrite Hh, Hy; split; lra.
Qed.

Lemma stepOk_forwardOnly h d b b' :
  stepOk h d b b' -> 0 <= d -> forwardOnly b b'.
Proof.
  unfold stepOk, forwardOnly.
  intros (_ & [(Hp & Hy & _)|(Hp & _)]) Hd; rewrite Hp; split;
    try lia; intros; try lia.
  rewrite Hy. lra.
Qed.

Lemma forwardOnly_refl b : forwardOnly b b.
Proof. split; [lia|intros; lra]. Qed.

Lemma forwardOnly_trans b1 b2 b3 :
  forwardOnly b1 b2 -> forwardOnly b2 b3 -> forwardOnly b1 b3.
Proof.
  unfold forwardOnly. intros (P12 & Y12) (P23 & Y23). split; [lia|].
  intro E. assert (E2 : pageNumber b2 = pageNumber b1) by lia.
  assert (E3 : pageNumber b3 = pageNumber b2) by lia.
  specialize (Y12 E2). specialize (Y23 E3). lra.
Qed.

Lemma sameCursor_refl b : sameCursor b b.
Proof. now repeat split. Qed.

Lemma sameCursor_trans b1 b2 b3 :
  sameCursor b1 b2 -> sameCursor b2 b3 -> sameCursor b1 b3.
Proof.
  unfold sameCursor. intros (A1 & A2 & A3) (B1 & B2 & B3).
  repeat split; congruence.
Qed.

Lemma fold_sameCursor {A} (f : PdfBuilder -> A -> PdfBuilder) :
  (forall b a, sameCursor b (f b a)) ->
  forall l b, sameCursor b (fold_left f l b).
Proof.
  intros Hf l. induction l as [|a l IH]; intro b; cbn [fold_left].
  - apply sameCursor_refl.
  - eapply sameCursor_trans; [apply Hf|apply IH].
Qed.

(** The same for a loop that carries a running x-position along. *)
Lemma fold_pair_sameCursor {A} (f : PdfBuilder * Q -> A -> PdfBuilder * Q) :
  (forall st a, sameCursor (fst st) (fst (f st a))) ->
  forall l st, sameCursor (fst st) (fst (fold_left f l st)).
Proof.
  intros Hf l. induction l as [|a l IH]; intro st; cbn [fold_left].
  - apply sameCursor_refl.
  - eapply sameCursor_trans; [apply Hf|apply IH].
Qed.

Lemma lengthQ_nonneg {A} (l : list A) : 0 <= lengthQ l.
Proof.
  unfold lengthQ. change 0 with (inject_Z 0). rewrite <- Zle_Qle. lia.
Qed.

Lemma lengthQ_cons {A} (a : A) (l : list A) : lengthQ (a :: l) == lengthQ l + 1.
Proof.
  unfold lengthQ. cbn [List.length]. rewrite Nat2Z.inj_succ.
  unfold Z.succ. rewrite inject_Z_plus. reflexivity.
Qed.

Lemma textHeightOf_nonneg l : 0 <= textHeightOf l.
Proof.
  unfold textHeightOf, FONT_SIZES_BODY, LINE_HEIGHT_MULTIPLIER.
  pose proof (lengthQ_nonneg l). nra.
Qed.

Lemma y_advance d b : y (advance d b) = y b + d.
Proof. reflexivity. Qed.

Lemma pageHeight_advance d b : pageHeight (advance d b) = pageHeight b.
Proof. reflexivity. Qed.

Lemma pageNumber_advance d b : pageNumber (advance d b) = pageNumber b.
Proof. reflexivity. Qed.

Lemma y_onDoc f b : y (onDoc f b) = y b.
Proof. reflexivity. Qed.

Lemma pageHeight_onDoc f b : pageHeight (onDoc f b) = pageHeight b.
Proof. reflexivity. Qed.

Lemma pageNumber_onDoc f b : pageNumber (onDoc f b) = pageNumber b.
Proof. reflexivity. Qed.

Ltac cursor_rw :=
  rewrite ?y_advance, ?pageHeight_advance, ?pageNumber_advance,
    ?y_onDoc, ?pageHeight_onDoc, ?pageNumber_onDoc.

Ltac cursor_fields :=
  unfold advance; cbn [y pageHeight pageNumber setY onDoc fst].

Lemma addHeader_step text b :
  stepOk 20 (FONT_SIZES_H1 * 0.7) b (addHeader text b).
Proof. apply checked_block; unfold addHeader; cursor_fields; reflexivity. Qed.

Lemma addSubheader_step text b :
  stepOk 15 (FONT_SIZES_H2 * 0.9) b (addSubheader text b).
Proof.
  apply checked_block; unfold addSubheader; cursor_fields; reflexivity.
Qed.

Lemma addSectionTitle_step text b :
  stepOk 10 (FONT_SIZES_H3 * 0.7) b (addSectionTitle text b).
Proof.
  apply checked_block; unfold addSectionTitle; cursor_fields; reflexivity.
Qed.

Lemma addSeparator_step b : stepOk 10 10 b (addSeparator b).
Proof.
  apply checked_block; unfold addSeparator; cursor_fields;
    try reflexivity.
  ring.
Qed.

Lemma addBodyText_step text options b :
  let h := textHeightOf (wrap splitTextToSize b text (contentWidth b)) in
  stepOk h h b (addBodyText splitTextToSize (Some text) options b).
Proof.
  cbv zeta. destruct (addBodyText_present text options b) as (_ & Hy & Hp & Hh).
  cbv zeta in Hy, Hp, Hh. apply checked_block; [exact Hh|exact Hp|].
  rewrite Hy. reflexivity.
Qed.

Lemma addBulletItem_step b item :
  let h := textHeightOf (wrap splitTextToSize b item (contentWidth b - 5)) in
  stepOk h h b (addBulletItem splitTextToSize b item).
Proof.
  cbv zeta. apply checked_block; unfold addBulletItem; cursor_fields;
    reflexivity.
Qed.

Lemma addScoreItem_sameCursor itemWidth b entry :
  sameCursor b (addScoreItem itemWidth b entry).
Proof.
  destruct entry as [[label score] index].
  unfold sameCursor, addScoreItem. cursor_fields. now repeat split.
Qed.

Lemma addScoreGrid_step s b : stepOk 20 15 b (addScoreGrid s b).
Proof.
  unfold addScoreGrid.
  destruct (fold_sameCursor (addScoreItem (contentWidth b / 4))
              (addScoreItem_sameCursor (contentWidth b / 4))
              (indexed (scoreItems s)) (checkAndAddPage 20 b)) as (Hy & Hh & Hp).
  apply checked_block; cursor_rw; [exact Hh|exact Hp|].
  rewrite Hy. reflexivity.
Qed.

Lemma paintHeadCell_sameCursor st cell :
  sameCursor (fst st) (fst (paintHeadCell st cell)).
Proof.
  destruct st as [b x], cell as [header i].
  unfold sameCursor, paintHeadCell. cursor_fields. now repeat split.
Qed.

Lemma paintBodyCell_sameCursor st cell :
  sameCursor (fst st) (fst (paintBodyCell splitTextToSize st cell)).
Proof.
  destruct st as [b x], cell as [c i].
  unfold sameCursor, paintBodyCell. cursor_fields. now repeat split.
Qed.

Lemma paintColumnRule_sameCursor startY st w :
  sameCursor (fst st) (fst (paintColumnRule startY st w)).
Proof.
  destruct st as [b x].
  unfold sameCursor, paintColumnRule. cursor_fields. now repeat split.
Qed.

(** One body row: paint only, then one row height down. *)
Lemma paintBodyRow_cursor b entry :
  let b' := paintBodyRow splitTextToSize b entry in
  y b' = y b + rowHeight /\ pageHeight b' = pageHeight b /\
  pageNumber b' = pageNumber b.
Proof.
  destruct entry as [row rowIndex]. cbv zeta. unfold paintBodyRow.
  match goal with
  | |- context [fold_left ?f ?l (?b0, MARGIN)] =>
      destruct (fold_pair_sameCursor f (paintBodyCell_sameCursor) l (b0, MARGIN))
        as (Hy & Hh & Hp); cbn [fst] in Hy, Hh, Hp
  end.
  unfold advance. cbn [y setY pageHeight pageNumber].
  rewrite Hy, Hh, Hp.
  destruct (negb (rowIndex mod 2 =? 0)%nat); now repeat split.
Qed.

Lemma paintBodyRows_cursor rows : forall b,
  let b' := fold_left (paintBodyRow splitTextToSize) rows b in
  y b' == y b + lengthQ rows * rowHeight /\ pageHeight b' = pageHeight b /\
  pageNumber b' = pageNumber b.
Proof.
  induction rows as [|r rows IH]; intro b; cbv zeta; cbn [fold_left].
  - repeat split. unfold lengthQ. cbn. ring.
  - destruct (IH (paintBodyRow splitTextToSize b r)) as (Hy & Hh & Hp).
    destruct (paintBodyRow_cursor b r) as (Hy1 & Hh1 & Hp1).
    cbv zeta in *. rewrite Hy, Hh, Hp, Hy1, Hh1, Hp1.
    repeat split. rewrite lengthQ_cons. ring.
Qed.

Lemma lengthQ_withIndex {A} (l : list A) : lengthQ (withIndex l) = lengthQ l.
Proof.
  unfold lengthQ, withIndex. now rewrite length_combine, length_seq, Nat.min_id.
Qed.

Lemma headCells_cursor l b x :
  sameCursor b (fst (fold_left paintHeadCell l (b, x))).
Proof. apply (fold_pair_sameCursor _ paintHeadCell_sameCursor l (b, x)). Qed.

Lemma columnRules_cursor startY l b x :
  sameCursor b (fst (fold_left (paintColumnRule startY) l (b, x))).
Proof.
  apply (fold_pair_sameCursor _ (paintColumnRule_sameCursor startY) l (b, x)).
Qed.

Ltac table_cursor :=
  repeat first
    [ progress cursor_rw
    | rewrite (proj1 (columnRules_cursor _ _ _ _))
    | rewrite (proj1 (proj2 (columnRules_cursor _ _ _ _)))
    | rewrite (proj2 (proj2 (columnRules_cursor _ _ _ _)))
    | rewrite (proj1 (proj2 (paintBodyRows_cursor _ _)))
    | rewrite (proj2 (proj2 (paintBodyRows_cursor _ _)))
    | rewrite (proj1 (headCells_cursor _ _ _))
    | rewrite (proj1 (proj2 (headCells_cursor _ _ _)))
    | rewrite (proj2 (proj2 (headCells_cursor _ _ _))) ].

(** The summary table reserves [(n + 1) * rowHeight] and then moves the
    cursor by that much plus a trailing gap of 5. *)
Lemma addSummaryTable_step candidates b :
  let h := (lengthQ candidates + 1) * rowHeight in
  stepOk h (h + 5) b (addSummaryTable splitTextToSize candidates b).
Proof.
  cbv zeta. unfold addSummaryTable. cbv zeta.
  assert (El : lengthQ (map tableRow candidates) = lengthQ candidates)
    by (unfold lengthQ; now rewrite length_map).
  rewrite El.
  apply checked_block; table_cursor; try reflexivity.
  rewrite (proj1 (paintBodyRows_cursor _ _)). table_cursor.
  rewrite lengthQ_withIndex, El. ring.
Qed.

(** *** The band invariant *)

Lemma contentWidth_checkAndAddPage h b :
  contentWidth (checkAndAddPage h b) = contentWidth b.
Proof.
  destruct (checkAndAddPage_cases h b) as [[_ ->]|[_ ->]]; [reflexivity|].
  unfold addPage. now destruct (0 <? pageNumber b)%nat.
Qed.

Lemma contentWidth_addBulletItem b item :
  contentWidth (addBulletItem splitTextToSize b item) = contentWidth b.
Proof.
  unfold addBulletItem. cbv zeta. unfold advance.
  cbn [contentWidth setY onDoc]. apply contentWidth_checkAndAddPage.
Qed.










(** A body text that has no room on an empty page leaves the band,
    whatever the line wrapping is. *)
Lemma oversized_text_leaves_band text options b :
  MARGIN <= y b ->
  ~ fits b (textHeightOf (wrap splitTextToSize b text (contentWidth b))) ->
  bottomLimit (addBodyText splitTextToSize (Some text) options b)
  < y (addBodyText splitTextToSize (Some text) options b).
Proof.
  intros Hb Hfit. apply Qnot_le_lt in Hfit.
  destruct (addBodyText_step text options b)
    as (Hh & [(_ & Hy & Hroom)|(_ & Hy)]);
    unfold bottomLimit in *; rewrite Hh, Hy; lra.
Qed.

(** *** Which way the cursor moves *)

Lemma forwardOnly_checkAndAddPage h b : forwardOnly b (checkAndAddPage h b).
Proof.
  split; [apply pageNumber_checkAndAddPage_le|].
  destruct (checkAndAddPage_offset h b) as [(-> & _ & _)|(_ & ->)];
    intro; [lra|lia].
Qed.

Lemma forwardOnly_advance d b : 0 <= d -> forwardOnly b (advance d b).
Proof. intro Hd. split; [cbn; lia|]. intros _. rewrite y_advance. lra. Qed.

Lemma bulletItems_forwardOnly items : forall b,
  forwardOnly b (fold_left (addBulletItem splitTextToSize) items b).
Proof.
  induction items as [|item items IH]; intro b; cbn [fold_left].
  - apply forwardOnly_refl.
  - eapply forwardOnly_trans; [|apply IH].
    eapply stepOk_forwardOnly; [apply addBulletItem_step|].
    apply textHeightOf_nonneg.
Qed.

Lemma block_forwardOnly (blk : Block) (b : PdfBuilder) :
  forwardOnly b (render splitTextToSize blk b).
Proof.
  assert (Hbody : forall text options,
            forwardOnly b (addBodyText splitTextToSize (Some text) options b)).
  { intros text options. eapply stepOk_forwardOnly;
      [apply addBodyText_step|apply textHeightOf_nonneg]. }
  destruct blk as [text|text|text|text options|items|s|candidates|];
    cbn [render].
  - eapply stepOk_forwardOnly; [apply addHeader_step|unfold FONT_SIZES_H1; lra].
  - eapply stepOk_forwardOnly;
      [apply addSubheader_step|unfold FONT_SIZES_H2; lra].
  - eapply stepOk_forwardOnly;
      [apply addSectionTitle_step|unfold FONT_SIZES_H3; lra].
  - destruct text as [text|]; [apply Hbody|apply forwardOnly_refl].
  - destruct items as [[|first rest]|]; [apply Hbody| |apply Hbody].
    apply (bulletItems_forwardOnly (first :: rest)).
  - eapply stepOk_forwardOnly; [apply addScoreGrid_step|lra].
  - pose proof (lengthQ_nonneg candidates).
    eapply stepOk_forwardOnly;
      [apply addSummaryTable_step|unfold rowHeight; lra].
  - eapply stepOk_forwardOnly; [apply addSeparator_step|lra].
Qed.

Lemma sectionFirstPass_forwardOnly {E} title (content : World E -> World E) w :
  forwardContent content ->
  forwardOnly (fst w) (fst (sectionFirstPass title content w)).
Proof.
  intro Hc. unfold sectionFirstPass, onBuilder. cbn [fst snd].
  eapply forwardOnly_trans; [apply (forwardOnly_checkAndAddPage 15)|].
  eapply forwardOnly_trans; [apply (forwardOnly_advance 5); lra|].
  eapply forwardOnly_trans;
    [apply (block_forwardOnly (SectionTitle title))|].
  eapply forwardOnly_trans; [apply (forwardOnly_advance 2); lra|].
  eapply forwardOnly_trans;
    [exact (Hc (advance 2 (addSectionTitle title
                             (advance 5 (checkAndAddPage 15 (fst w)))),
                snd w))|].
  apply (forwardOnly_advance 5); lra.
Qed.

(** The redraw pass never lowers the page index. *)
Lemma redraw_pageNumber {E} title (content : World E -> World E) v v' w :
  forwardContent content ->
  (pageNumber (fst w) <=
   pageNumber (fst (onBuilder (setY v')
     (content (onBuilder (advance 2)
        (onBuilder (addSectionTitle title) (onBuilder (setY v) w)))))))%nat.
Proof.
  intro Hc. unfold onBuilder. cbn [fst snd].
  match goal with
  | |- (_ <= pageNumber (setY _ (fst (content ?w0))))%nat =>
      destruct (Hc w0) as (Hp & _); cbn [fst] in Hp;
      change (pageNumber (setY v' (fst (content w0))))
        with (pageNumber (fst (content w0)))
  end.
  rewrite pageNumber_advance in Hp.
  destruct (block_forwardOnly (SectionTitle title) (setY v (fst w))) as (Hq & _).
  cbn [render] in Hq. cbn [pageNumber setY] in Hq. lia.
Qed.

Lemma addStyledSection_forwardOnly {E} title (content : World E -> World E) w :
  forwardContent content ->
  forwardOnly (fst w) (fst (addStyledSection title content w)).
Proof.
  intro Hc.
  pose proof (sectionFirstPass_forwardOnly title content w Hc) as (Hp1 & Hy1).
  assert (Hfin :
    y (fst (addStyledSection title content w)) =
      y (fst (sectionFirstPass title content w)) /\
    (pageNumber (fst (sectionFirstPass title content w)) <=
     pageNumber (fst (addStyledSection title content w)))%nat).
  { unfold addStyledSection, sectionFirstPass. cbv zeta.
    match goal with |- context [if ?c then _ else _] => destruct c end.
    - split; [reflexivity|]. apply redraw_pageNumber, Hc.
    - split; [reflexivity|].
      match goal with
      | |- (pageNumber (fst ?w6) <= pageNumber (fst (onBuilder (setY ?v')
             (content (onBuilder (advance 2) (onBuilder (addSectionTitle title)
                (onBuilder (setY ?v) ?w7)))))))%nat =>
          pose proof (redraw_pageNumber title content v v' w7 Hc) as Hr;
          change (pageNumber (fst w7)) with (pageNumber (fst w6)) in Hr
      end.
      exact Hr. }
  destruct Hfin as (Hy & Hp). split; [lia|].
  intro E0. rewrite Hy. apply Hy1. lia.
Qed.

(** *** The grid of the summary table *)

Lemma contentWidth_onDoc f b : contentWidth (onDoc f b) = contentWidth b.
Proof. reflexivity. Qed.

Lemma contentWidth_advance d b : contentWidth (advance d b) = contentWidth b.
Proof. reflexivity. Qed.

Lemma fold_pair_contentWidth {A} (f : PdfBuilder * Q -> A -> PdfBuilder * Q) :
  (forall st a, contentWidth (fst (f st a)) = contentWidth (fst st)) ->
  forall l st,
    contentWidth (fst (fold_left f l st)) = contentWidth (fst st).
Proof.
  intros Hf l. induction l as [|a l IH]; intro st; cbn [fold_left].
  - reflexivity.
  - now rewrite IH, Hf.
Qed.

Lemma paintHeadCell_contentWidth st cell :
  contentWidth (fst (paintHeadCell st cell)) = contentWidth (fst st).
Proof. now destruct st as [b x], cell as [header i]. Qed.

Lemma paintBodyCell_contentWidth st cell :
  contentWidth (fst (paintBodyCell splitTextToSize st cell))
  = contentWidth (fst st).
Proof. now destruct st as [b x], cell as [c i]. Qed.

Lemma paintBodyRow_contentWidth b entry :
  contentWidth (paintBodyRow splitTextToSize b entry) = contentWidth b.
Proof.
  destruct entry as [row rowIndex]. unfold paintBodyRow.
  rewrite contentWidth_advance.
  rewrite (fold_pair_contentWidth _ paintBodyCell_contentWidth). cbn [fst].
  now destruct (negb (rowIndex mod 2 =? 0)%nat).
Qed.

Lemma paintBodyRows_contentWidth rows : forall b,
  contentWidth (fold_left (paintBodyRow splitTextToSize) rows b)
  = contentWidth b.
Proof.
  induction rows as [|r rows IH]; intro b; cbn [fold_left]; [reflexivity|].
  now rewrite IH, paintBodyRow_contentWidth.
Qed.

Lemma ruleXs_prefix_sums :
  Forall2 Qeq ruleXs
          (map (fun k => MARGIN + fold_right Qplus 0 (firstn k colWidths))
               [1%nat; 2%nat; 3%nat; 4%nat]).
Proof. repeat constructor; vm_compute; reflexivity. Qed.

Lemma paintsOnPage_refl b : paintsOnPage b b.
Proof.
  split; [reflexivity|]. exists []. now rewrite app_nil_r.
Qed.

Lemma paintsOnPage_trans b1 b2 b3 :
  paintsOnPage b1 b2 -> paintsOnPage b2 b3 -> paintsOnPage b1 b3.
Proof.
  intros (P12 & ops12 & C12 & F12) (P23 & ops23 & C23 & F23).
  split; [congruence|]. exists (ops12 ++ ops23)%list. split.
  - now rewrite C23, C12, app_assoc.
  - apply Forall_app. split; [exact F12|]. now rewrite <- P12.
Qed.

Lemma paintsOnPage_paint o b : paintsOnPage b (onDoc (Doc.paint o) b).
Proof.
  split; [reflexivity|]. eexists. split; [reflexivity|].
  now repeat constructor.
Qed.

Lemma paintsOnPage_withGState f b :
  paintsOnPage b (onDoc (Doc.withGState f) b).
Proof.
  split; [reflexivity|]. exists []. cbn. now rewrite app_nil_r.
Qed.

Lemma paintsOnPage_advance d b : paintsOnPage b (advance d b).
Proof.
  split; [reflexivity|]. exists []. cbn. now rewrite app_nil_r.
Qed.

Lemma fold_paintsOnPage {A} (f : PdfBuilder -> A -> PdfBuilder) :
  (forall b a, paintsOnPage b (f b a)) ->
  forall l b, paintsOnPage b (fold_left f l b).
Proof.
  intros Hf l. induction l as [|a l IH]; intro b; cbn [fold_left].
  - apply paintsOnPage_refl.
  - eapply paintsOnPage_trans; [apply Hf|apply IH].
Qed.

Lemma fold_pair_paintsOnPage {A} (f : PdfBuilder * Q -> A -> PdfBuilder * Q) :
  (forall st a, paintsOnPage (fst st) (fst (f st a))) ->
  forall l b x, paintsOnPage b (fst (fold_left f l (b, x))).
Proof.
  intros Hf l. induction l as [|a l IH]; intros b x; cbn [fold_left].
  - apply paintsOnPage_refl.
  - eapply paintsOnPage_trans; [apply (Hf (b, x) a)|].
    destruct (f (b, x) a) as [b1 x1]. apply IH.
Qed.

(** Steps of a renderer, walked from the last one back to the first. *)
Ltac paint_steps :=
  repeat first
    [ apply paintsOnPage_refl
    | eapply paintsOnPage_trans;
      [| first [ apply paintsOnPage_advance
               | apply paintsOnPage_paint
               | apply paintsOnPage_withGState ] ] ].

Lemma paintHeadCell_paintsOnPage st cell :
  paintsOnPage (fst st) (fst (paintHeadCell st cell)).
Proof.
  destruct st as [b x], cell as [header i]. apply paintsOnPage_paint.
Qed.

Lemma paintBodyCell_paintsOnPage st cell :
  paintsOnPage (fst st) (fst (paintBodyCell splitTextToSize st cell)).
Proof.
  destruct st as [b x], cell as [c i]. apply paintsOnPage_paint.
Qed.

Lemma paintColumnRule_paintsOnPage startY st w :
  paintsOnPage (fst st) (fst (paintColumnRule startY st w)).
Proof. destruct st as [b x]. apply paintsOnPage_paint. Qed.

Lemma paintBodyRow_paintsOnPage b entry :
  paintsOnPage b (paintBodyRow splitTextToSize b entry).
Proof.
  destruct entry as [row rowIndex]. cbv beta delta [paintBodyRow]. cbv zeta.
  cbv beta iota.
  eapply paintsOnPage_trans; [|apply paintsOnPage_advance].
  eapply paintsOnPage_trans;
    [|apply (fold_pair_paintsOnPage _ paintBodyCell_paintsOnPage)].
  destruct (negb (rowIndex mod 2 =? 0)%nat); paint_steps.
Qed.

(** Once the capacity check is done, the summary table turns no page:
    header, rows, border and rules all land on the page that is current
    then, whatever the number of rows. *)
Lemma addSummaryTable_one_page candidates b :
  paintsOnPage
    (checkAndAddPage ((lengthQ (map tableRow candidates) + 1) * rowHeight) b)
    (addSummaryTable splitTextToSize candidates b).
Proof.
  cbv beta delta [addSummaryTable]. cbv zeta.
  eapply paintsOnPage_trans; [|apply paintsOnPage_advance].
  eapply paintsOnPage_trans;
    [|apply (fold_pair_paintsOnPage _ (paintColumnRule_paintsOnPage _))].
  eapply paintsOnPage_trans; [|apply paintsOnPage_paint].
  eapply paintsOnPage_trans; [|apply paintsOnPage_withGState].
  eapply paintsOnPage_trans;
    [|apply (fold_paintsOnPage _ paintBodyRow_paintsOnPage)].
  eapply paintsOnPage_trans; [|apply paintsOnPage_withGState].
  eapply paintsOnPage_trans; [|apply paintsOnPage_advance].
  eapply paintsOnPage_trans;
    [|apply (fold_pair_paintsOnPage _ paintHeadCell_paintsOnPage)].
  paint_steps.
Qed.

(** The last thing the summary table paints is its grid, all of it on one
    page, and the grid hangs from the offset the cursor had on entry, before
    the capacity check, and reaches down to the end of the last row. *)
Lemma addSummaryTable_grid candidates b :
  exists before page g bottom,
    canvas (doc (addSummaryTable splitTextToSize candidates b)) =
      (before ++ map (mkPainted page g)
                     (tableGrid (y b) bottom (contentWidth b)))%list /\
    y (addSummaryTable splitTextToSize candidates b) = bottom + 5.
Proof.
  cbv beta delta [addSummaryTable]. cbv zeta.
  set (bRows := fold_left (paintBodyRow splitTextToSize) _ _).
  assert (Ew : contentWidth bRows = contentWidth b).
  { subst bRows. rewrite paintBodyRows_contentWidth.
    rewrite contentWidth_onDoc, contentWidth_advance.
    rewrite (fold_pair_contentWidth _ paintHeadCell_contentWidth).
    cbn [fst]. rewrite !contentWidth_onDoc.
    apply contentWidth_checkAndAddPage. }
  rewrite contentWidth_onDoc, Ew. clearbody bRows.
  destruct bRows as [[w h n cp g cv] y0 pw ph cw pn].
  cbv beta iota delta [removelast colWidths fold_left paintColumnRule fst].
  plumbing.
  exists cv, cp,
    (mkGState (fontName g) (fontStyle g) (fontSize g) (textColor g)
              (fillColor g) (rgb 209 213 219)), y0.
  rewrite <- !app_assoc. split; reflexivity.
Qed.

Lemma sectionStates_last {E} title (content : World E -> World E) w :
  last (sectionStates title content w) w = addStyledSection title content w.
Proof.
  unfold sectionStates, addStyledSection. cbv zeta. cbn [last].
  now match goal with |- context [if ?c then _ else _] => destruct c end.
Qed.

Lemma sectionStates_rewind {E} title (content : World E -> World E) w :
  option_map (fun s => y (fst s)) (nth_error (sectionStates title content w) 8)
  = Some (sectionContentStartY title (fst w) - 7).
Proof. reflexivity. Qed.

(** C6, as the code has it. Measured over a whole call, the capacity check,
    every block renderer, and every styled section whose content procedure
    obeys the same rule, leave the page index no lower and the offset no
    lower unless the page index rose, that is, unless [addPage] ran, which
    puts the offset at the margin. Inside a styled section the cursor is
    moved back to [contentStartY - 7] for the repaint, and the call ends
    at the recorded [endY]. *)
Theorem offset_lowered_only_across_addPage :
  (forall b,
     y (addPage b) = MARGIN /\ pageNumber (addPage b) = S (pageNumber b)) /\
  (forall h b, forwardOnly b (checkAndAddPage h b)) /\
  (forall blk b, forwardOnly b (render splitTextToSize blk b)) /\
  (forall E title (content : World E -> World E) w,
     forwardContent content ->
     forwardOnly (fst w) (fst (addStyledSection title content w))) /\
  (forall E title (content : World E -> World E) w,
     option_map (fun s => y (fst s))
                (nth_error (sectionStates title content w) 8)
       = Some (sectionContentStartY title (fst w) - 7) /\
     last (sectionStates title content w) w
       = addStyledSection title content w /\
     y (fst (addStyledSection title content w)) = sectionEndY title content w).
Proof.
  split; [intro b; split; [reflexivity|apply pageNumber_addPage]|].
  split; [apply forwardOnly_checkAndAddPage|].
  split; [apply block_forwardOnly|].
  split; [intros E title content w; apply addStyledSection_forwardOnly|].
  intros E title content w.
  split; [apply sectionStates_rewind|].
  split; [apply sectionStates_last|].
  unfold addStyledSection, sectionEndY, sectionFirstPass. cbv zeta.
  now match goal with |- context [if ?c then _ else _] => destruct c end.
Qed.

End EngineFacts.

(** ** The page-break test and the report as a whole *)

(** Within a page the test cannot fire at all: for offsets from 0.1 up to
    the page height it computes 0 on both sides. *)
Lemma spansPageBreak_blind_within_page (startY endY pageHeight : Q) :
  0 < pageHeight ->
  0.1 <= startY < pageHeight + 0.1 -> 0.1 <= endY < pageHeight + 0.1 ->
  spansPageBreak startY endY pageHeight = false.
Proof.
  intros Hp [Hs1 Hs2] [He1 He2]. unfold spansPageBreak.
  assert (F : forall v, 0.1 <= v < pageHeight + 0.1 ->
                        Qfloor ((v - 0.1) / pageHeight) = 0%Z).
  { intros v [Hv1 Hv2].
    assert (H0 : 0 <= (v - 0.1) / pageHeight)
      by (apply Qle_shift_div_l; [exact Hp|lra]).
    assert (H1 : (v - 0.1) / pageHeight < 1)
      by (apply Qlt_shift_div_r; [exact Hp|lra]).
    pose proof (Qfloor_resp_le _ _ H0) as L. change (Qfloor 0) with 0%Z in L.
    pose proof (Qlt_floor ((v - 0.1) / pageHeight)) as U.
    pose proof (Qfloor_le ((v - 0.1) / pageHeight)) as U'.
    assert (Hlt : inject_Z (Qfloor ((v - 0.1) / pageHeight)) < inject_Z 1).
    { eapply Qle_lt_trans; [exact U'|exact H1]. }
    rewrite <- Zlt_Qlt in Hlt. lia. }
  rewrite (F startY), (F endY) by (split; assumption). reflexivity.
Qed.

Lemma chain_nth {A} (R : A -> A -> Prop) (d : A) (l : list A) : forall i,
  chain R l -> (S i < List.length l)%nat -> R (nth i l d) (nth (S i) l d).
Proof.
  induction l as [|a l IH]; intros i Hc Hi; [cbn in Hi; lia|].
  destruct l as [|a' l]; [cbn in Hi; lia|].
  destruct Hc as [Hr Hc]. destruct i as [|i]; [exact Hr|].
  apply (IH i Hc). cbn in Hi |- *. lia.
Qed.

(** The report, cut where the summary table and the first styled section
    begin. *)
Lemma generatePdf_stages splitTextToSize today result :
  generatePdf splitTextToSize today result =
    finalizeAndAddFooters
      (fst (addStyledSection "Final Recommendation"
              (onBuilder (renderRecommendation splitTextToSize result))
              (onBuilder (advance 10)
                 (addStyledSection "Bias Analysis Report"
                    (onBuilder (renderBiasAnalysis splitTextToSize result))
                    (reportBeforeBias splitTextToSize today result, tt))))).
Proof. reflexivity. Qed.

(** ** What every step of the engine keeps *)

(** Reduction of the builder and backend plumbing, innermost first. *)
Ltac builder_cbv :=
  cbv beta iota zeta delta
      [onDoc setY advance setPageNumber onBuilder fst snd
       Doc.line Doc.text Doc.rect Doc.paint Doc.setFont Doc.setFontSize
       Doc.setTextColor Doc.setFillColor Doc.setDrawColor Doc.withGState
       doc y pageWidth pageHeight contentWidth pageNumber pageSizeWidth
       pageSizeHeight numberOfPages currentPage gstate canvas fontName
       fontStyle fontSize textColor fillColor drawColor].

Ltac flows_goals :=
  unfold flows; split; [|split; [|split; [|split; [|split]]]].

Lemma flows_refl b : flows b b.
Proof.
  flows_goals; try reflexivity; try lia; try tauto.
  exists []. now rewrite app_nil_r.
Qed.

Lemma flows_trans b1 b2 b3 : flows b1 b2 -> flows b2 b3 -> flows b1 b3.
Proof.
  intros (W1 & H1 & C1 & (o1 & A1) & P1 & S1)
         (W2 & H2 & C2 & (o2 & A2) & P2 & S2).
  flows_goals; try congruence; try lia; try tauto.
  exists (o1 ++ o2)%list. now rewrite A2, A1, app_assoc.
Qed.

Lemma flows_paint o b : flows b (onDoc (Doc.paint o) b).
Proof.
  flows_goals; try reflexivity; try (cbn; lia); try (intro H; exact H).
  eexists. reflexivity.
Qed.

Lemma flows_withGState f b : flows b (onDoc (Doc.withGState f) b).
Proof.
  flows_goals; try reflexivity; try (cbn; lia); try (intro H; exact H).
  exists []. cbn. now rewrite app_nil_r.
Qed.

Lemma flows_setY v b : flows b (setY v b).
Proof.
  flows_goals; try reflexivity; try (cbn; lia); try (intro H; exact H).
  exists []. cbn. now rewrite app_nil_r.
Qed.

Lemma flows_advance d b : flows b (advance d b).
Proof. apply flows_setY. Qed.

Lemma flows_addPage b : flows b (addPage b).
Proof.
  destruct b as [[w h n cp g cv] y0 pw ph cw pn].
  cbv beta delta [addPage addPageHeader].
  destruct pn as [|pn].
  - cbv beta iota zeta delta [Nat.ltb Nat.leb]. builder_cbv.
    flows_goals; try reflexivity; try (cbn; lia).
    + eexists. cbn [doc canvas]. rewrite <- app_assoc. reflexivity.
    + intros (A & _). cbn in A. lia.
  - cbv beta iota zeta delta [Nat.ltb Nat.leb Doc.addPage]. builder_cbv.
    flows_goals; try reflexivity; try (cbn; lia).
    + eexists. cbn [doc canvas]. rewrite <- app_assoc. reflexivity.
    + intros (_ & B & _). cbn in B. unfold pagesInSync. cbn. lia.
Qed.

Lemma flows_checkAndAddPage h b : flows b (checkAndAddPage h b).
Proof.
  destruct (checkAndAddPage_cases h b) as [[_ ->]|[_ ->]];
    [apply flows_refl|apply flows_addPage].
Qed.

Lemma fold_flows {A} (f : PdfBuilder -> A -> PdfBuilder) :
  (forall b a, flows b (f b a)) -> forall l b, flows b (fold_left f l b).
Proof.
  intros Hf l. induction l as [|a l IH]; intro b; cbn [fold_left].
  - apply flows_refl.
  - eapply flows_trans; [apply Hf|apply IH].
Qed.

Lemma fold_pair_flows {A} (f : PdfBuilder * Q -> A -> PdfBuilder * Q) :
  (forall st a, flows (fst st) (fst (f st a))) ->
  forall l b x, flows b (fst (fold_left f l (b, x))).
Proof.
  intros Hf l. induction l as [|a l IH]; intros b x; cbn [fold_left].
  - apply flows_refl.
  - eapply flows_trans; [apply (Hf (b, x) a)|].
    destruct (f (b, x) a) as [b1 x1]. apply IH.
Qed.

(** Steps of a renderer, walked from the last one back to the capacity
    check. *)
Ltac flow_steps :=
  repeat first
    [ apply flows_refl
    | apply flows_checkAndAddPage
    | eapply flows_trans;
      [| first [ apply flows_advance | apply flows_setY
               | apply flows_paint | apply flows_withGState ] ] ].

Lemma flows_addHeader text b : flows b (addHeader text b).
Proof. cbv beta delta [addHeader]. cbv zeta. flow_steps. Qed.

Lemma flows_addSubheader text b : flows b (addSubheader text b).
Proof. cbv beta delta [addSubheader]. cbv zeta. flow_steps. Qed.

Lemma flows_addSectionTitle text b : flows b (addSectionTitle text b).
Proof. cbv beta delta [addSectionTitle]. cbv zeta. flow_steps. Qed.

Lemma flows_addSeparator b : flows b (addSeparator b).
Proof. cbv beta delta [addSeparator]. cbv zeta. flow_steps. Qed.

Lemma flows_onBuilder {E} (f : PdfBuilder -> PdfBuilder) :
  (forall b, flows b (f b)) -> flowingContent (@onBuilder E f).
Proof. intros Hf w. apply Hf. Qed.

Lemma flows_addStyledSection {E} title (content : World E -> World E) w :
  flowingContent content ->
  flows (fst w) (fst (addStyledSection title content w)).
Proof.
  intro Hc. cbv beta delta [addStyledSection]. cbv zeta.
  assert (Hfirst : flows (fst w)
            (fst (onBuilder (advance 5)
               (content (onBuilder (advance 2)
                  (onBuilder (addSectionTitle title)
                     (onBuilder (advance 5)
                        (onBuilder (checkAndAddPage 15) w)))))))).
  { cbv beta iota delta [onBuilder fst snd].
    eapply flows_trans; [|apply flows_advance].
    eapply flows_trans; [|exact (Hc (_, _))]. cbn [fst].
    eapply flows_trans; [|apply flows_advance].
    eapply flows_trans; [|apply flows_addSectionTitle].
    flow_steps. }
  assert (Hredraw : forall v v' w0,
            flows (fst w0)
              (fst (onBuilder (setY v')
                 (content (onBuilder (advance 2)
                    (onBuilder (addSectionTitle title)
                       (onBuilder (setY v) w0))))))).
  { intros v v' w0. cbv beta iota delta [onBuilder fst snd].
    eapply flows_trans; [|apply flows_setY].
    eapply flows_trans; [|exact (Hc (_, _))]. cbn [fst].
    eapply flows_trans; [|apply flows_advance].
    eapply flows_trans; [|apply flows_addSectionTitle].
    apply flows_setY. }
  match goal with |- context [if ?c then _ else _] => destruct c end.
  - eapply flows_trans; [exact Hfirst|apply Hredraw].
  - eapply flows_trans; [exact Hfirst|].
    eapply flows_trans; [|apply Hredraw].
    cbv beta iota delta [onBuilder fst snd]. flow_steps.
Qed.

(** X3. A styled section whose content only appends, keeps the geometry and
    keeps the pages in sync does so itself, although it runs the content twice
    and rewinds the offset in between. *)
Theorem styled_section_only_appends {E} (title : string)
        (content : World E -> World E) (w : World E) :
  flowingContent content ->
  let b := fst w in
  let b' := fst (addStyledSection title content w) in
  pageWidth b' = pageWidth b /\ pageHeight b' = pageHeight b /\
  contentWidth b' = contentWidth b /\
  (exists ops, canvas (doc b') = (canvas (doc b) ++ ops)%list) /\
  (pageNumber b <= pageNumber b')%nat /\
  (pagesInSync b -> pagesInSync b').
Proof. intro H. exact (flows_addStyledSection title content w H). Qed.

Lemma addSectionTitle_no_break text b :
  y b + 10 <= bottomLimit b ->
  y (addSectionTitle text b) = y b + FONT_SIZES_H3 * 0.7 /\
  pageNumber (addSectionTitle text b) = pageNumber b.
Proof.
  intro Hfit.
  assert (E : checkAndAddPage 10 b = b).
  { destruct (checkAndAddPage_cases 10 b) as [[_ E]|[H _]]; [exact E|lra]. }
  cbv beta delta [addSectionTitle]. cbv zeta. rewrite E.
  rewrite y_advance, pageNumber_advance, !y_onDoc, !pageNumber_onDoc.
  split; reflexivity.
Qed.

(** X9. In a styled section the offset is rewound to 7 above the place where
    the content of the first pass began. If the title has room there, the
    second pass begins its content 3.4 below that place, on the same page:
    title and gap move the offset by 10.4. *)
Theorem repaint_starts_lower {E} (title : string)
        (content : World E -> World E) (w : World E) :
  let states := sectionStates title content w in
  let firstRun := fst (nth 4 states w) in
  let rewound := fst (nth 8 states w) in
  let secondRun := fst (nth 10 states w) in
  y rewound + 10 <= bottomLimit rewound ->
  y rewound == y firstRun - 7 /\
  y secondRun == y firstRun + 3.4 /\
  pageNumber secondRun = pageNumber rewound.
Proof.
  cbv zeta. cbv beta delta [sectionStates]. cbv zeta. cbn [nth].
  cbv beta iota delta [onBuilder fst snd].
  match goal with
  | |- y ?r + 10 <= bottomLimit ?r -> _ => set (rewound := r)
  end.
  intro Hfit.
  destruct (addSectionTitle_no_break title rewound Hfit) as (Hy & Hp).
  rewrite (y_advance 2 (addSectionTitle title rewound)).
  rewrite (pageNumber_advance 2 (addSectionTitle title rewound)), Hy, Hp.
  subst rewound. cbn [y setY]. unfold FONT_SIZES_H3.
  repeat split; try reflexivity. ring.
Qed.

Section EngineInvariants.

Variable splitTextToSize : Wrapper.

Lemma flows_addBodyText text options b :
  flows b (addBodyText splitTextToSize text options b).
Proof.
  destruct text as [text|]; [|apply flows_refl].
  cbv beta iota delta [addBodyText]. cbv zeta. flow_steps.
Qed.

Lemma flows_addBulletItem b item :
  flows b (addBulletItem splitTextToSize b item).
Proof. cbv beta delta [addBulletItem]. cbv zeta. flow_steps. Qed.

Lemma flows_addBulletList items b :
  flows b (addBulletList splitTextToSize items b).
Proof.
  destruct items as [[|first rest]|]; try apply flows_addBodyText.
  apply (fold_flows _ flows_addBulletItem).
Qed.

Lemma flows_addScoreGrid s b : flows b (addScoreGrid s b).
Proof.
  cbv beta delta [addScoreGrid]. cbv zeta.
  eapply flows_trans; [|apply flows_advance].
  eapply flows_trans; [apply flows_checkAndAddPage|].
  apply fold_flows. intros b0 [[label score] index].
  cbv beta iota delta [addScoreItem]. cbv zeta. flow_steps.
Qed.

Lemma flows_paintBodyRow b entry :
  flows b (paintBodyRow splitTextToSize b entry).
Proof.
  destruct entry as [row rowIndex]. cbv beta iota delta [paintBodyRow].
  cbv zeta.
  eapply flows_trans; [|apply flows_advance].
  eapply flows_trans; [|apply fold_pair_flows].
  - destruct (negb (rowIndex mod 2 =? 0)%nat); flow_steps.
  - intros [b0 x] [c i]. apply flows_paint.
Qed.

Lemma flows_addSummaryTable candidates b :
  flows b (addSummaryTable splitTextToSize candidates b).
Proof.
  cbv beta delta [addSummaryTable]. cbv zeta.
  eapply flows_trans; [|apply flows_advance].
  eapply flows_trans;
    [|apply fold_pair_flows; intros [b0 x] w; apply flows_paint].
  eapply flows_trans; [|apply flows_paint].
  eapply flows_trans; [|apply flows_withGState].
  eapply flows_trans; [|apply (fold_flows _ flows_paintBodyRow)].
  eapply flows_trans; [|apply flows_withGState].
  eapply flows_trans; [|apply flows_advance].
  eapply flows_trans;
    [|apply fold_pair_flows; intros [b0 x] [c i]; apply flows_paint].
  flow_steps.
Qed.

Lemma flows_render blk b : flows b (render splitTextToSize blk b).
Proof.
  destruct blk as [text|text|text|text options|items|s|candidates|];
    cbn [render].
  - apply flows_addHeader.
  - apply flows_addSubheader.
  - apply flows_addSectionTitle.
  - apply flows_addBodyText.
  - apply flows_addBulletList.
  - apply flows_addScoreGrid.
  - apply flows_addSummaryTable.
  - apply flows_addSeparator.
Qed.

(** The same walk over whole renderers, chosen by the head of the term. *)
Ltac flow_walk :=
  repeat lazymatch goal with
    | |- flows ?b ?b => apply flows_refl
    | |- flows _ (checkAndAddPage _ _) =>
        eapply flows_trans; [|apply flows_checkAndAddPage]
    | |- flows _ (advance _ _) => eapply flows_trans; [|apply flows_advance]
    | |- flows _ (addSectionTitle _ _) =>
        eapply flows_trans; [|apply flows_addSectionTitle]
    | |- flows _ (addBodyText _ _ _ _) =>
        eapply flows_trans; [|apply flows_addBodyText]
    | |- flows _ (addBulletList _ _ _) =>
        eapply flows_trans; [|apply flows_addBulletList]
    | |- flows _ (addScoreGrid _ _) =>
        eapply flows_trans; [|apply flows_addScoreGrid]
    | |- flows _ (addSeparator _) =>
        eapply flows_trans; [|apply flows_addSeparator]
    | |- flows _ (addSubheader _ _) =>
        eapply flows_trans; [|apply flows_addSubheader]
    | |- flows _ (addHeader _ _) =>
        eapply flows_trans; [|apply flows_addHeader]
    end.

Lemma flows_addCandidateDetails b candidate :
  flows b (addCandidateDetails splitTextToSize b candidate).
Proof. cbv beta delta [addCandidateDetails]. cbv zeta. flow_walk. Qed.

Lemma flows_renderBiasAnalysis result b :
  flows b (renderBiasAnalysis splitTextToSize result b).
Proof.
  cbv beta delta [renderBiasAnalysis]. cbv zeta.
  destruct (0 <? _)%nat; [|apply flows_addBodyText].
  apply fold_flows. intros b0 f. cbv beta delta [renderBiasFlag]. cbv zeta.
  eapply flows_trans; [|apply flows_advance].
  eapply flows_trans; [|apply flows_addBulletList].
  apply flows_addBodyText.
Qed.

Lemma flows_renderRecommendation result b :
  flows b (renderRecommendation splitTextToSize result b).
Proof.
  cbv beta delta [renderRecommendation]. cbv zeta.
  eapply flows_trans; [|apply flows_addBodyText]. apply flows_addBodyText.
Qed.

Lemma flows_reportBeforeBias today result :
  flows (addPage (addSummaryTable splitTextToSize (ranked_candidates result)
                    (reportBeforeTable splitTextToSize today result)))
        (reportBeforeBias splitTextToSize today result).
Proof.
  cbv beta delta [reportBeforeBias]. cbv zeta.
  eapply flows_trans; [|apply flows_addSeparator].
  eapply flows_trans; [|apply flows_checkAndAddPage].
  eapply flows_trans; [|apply fold_flows].
  - eapply flows_trans; [|apply flows_advance].
    apply flows_addSubheader.
  - intros b0 [candidate index]. cbv beta iota delta [addCandidateAndSeparator].
    destruct (index <? _)%nat; [|apply flows_addCandidateDetails].
    eapply flows_trans; [apply flows_addCandidateDetails|].
    apply flows_addSeparator.
Qed.

Lemma flows_reportBeforeTable today result :
  flows newPdfBuilder (reportBeforeTable splitTextToSize today result).
Proof.
  cbv beta delta [reportBeforeTable]. cbv zeta.
  eapply flows_trans; [|apply flows_addSubheader].
  eapply flows_trans; [|apply flows_addSeparator].
  eapply flows_trans; [|apply flows_addBodyText].
  eapply flows_trans; [|apply flows_addBodyText].
  eapply flows_trans; [|apply flows_advance].
  apply flows_addHeader.
Qed.

(** X4. The block of one candidate, [addCandidateDetails], keeps the geometry,
    only appends to the canvas, never lowers the page counter and keeps the
    pages in sync. *)
Theorem candidate_details_only_append (candidate : CandidateResult)
        (b : PdfBuilder) :
  let b' := addCandidateDetails splitTextToSize b candidate in
  pageWidth b' = pageWidth b /\ pageHeight b' = pageHeight b /\
  contentWidth b' = contentWidth b /\
  (exists ops, canvas (doc b') = (canvas (doc b) ++ ops)%list) /\
  (pageNumber b <= pageNumber b')%nat /\
  (pagesInSync b -> pagesInSync b').
Proof. exact (flows_addCandidateDetails b candidate). Qed.

Lemma pagesInSync_newPdfBuilder : pagesInSync newPdfBuilder.
Proof. repeat split; cbn; lia. Qed.


(** X1. Every block method leaves the builder's page counter, the backend's
    page count and the page being drawn on equal if they were equal before,
    and never lowers the page counter: pages are only added at the end and
    drawing goes on at the last one. *)
Theorem blocks_keep_pages_in_sync (blk : Block) (b : PdfBuilder) :
  pagesInSync b ->
  pagesInSync (render splitTextToSize blk b) /\
  (pageNumber b <= pageNumber (render splitTextToSize blk b))%nat.
Proof.
  intro H. destruct (flows_render blk b) as (_ & _ & _ & _ & P & S).
  split; [exact (S H)|exact P].
Qed.

(** X2. No block method changes the page width, the page height or the content
    width of the builder, and whatever was painted before it is still on the
    canvas, in the same order: a block only appends. *)
Theorem blocks_only_append (blk : Block) (b : PdfBuilder) :
  let b' := render splitTextToSize blk b in
  pageWidth b' = pageWidth b /\ pageHeight b' = pageHeight b /\
  contentWidth b' = contentWidth b /\
  exists ops, canvas (doc b') = (canvas (doc b) ++ ops)%list.
Proof.
  cbv zeta. destruct (flows_render blk b) as (W & H & C & A & _).
  now repeat split.
Qed.

Lemma footerGState_idem g : footerGState (footerGState g) = footerGState g.
Proof. reflexivity. Qed.

Lemma addFooters_frame totalPages l : forall b,
  Forall (fun i => (1 <= i <= numberOfPages (doc b))%nat) l ->
  let b' := fold_left (addFooter totalPages) l b in
  pageWidth b' = pageWidth b /\ pageHeight b' = pageHeight b /\
  (l <> [] -> gstate (doc b') = footerGState (gstate (doc b))).
Proof.
  induction l as [|i l IH]; intros b Hl; cbv zeta.
  - repeat split. intro H. now destruct H.
  - inversion Hl as [|? ? Hi Hl']; subst.
    cbn [fold_left]. rewrite (addFooter_in_range _ _ _ Hi).
    match goal with |- context [fold_left _ l ?b1] => set (b1' := b1) end.
    destruct (IH b1') as (Hw & Hh & Hg); [exact Hl'|].
    cbv zeta in Hw, Hh, Hg. rewrite Hw, Hh. subst b1'.
    cbn [pageWidth pageHeight]. repeat split. intros _.
    destruct l as [|j l]; [reflexivity|].
    rewrite Hg by discriminate. reflexivity.
Qed.

(** X5. Whatever the result, the report has at least two pages, the builder's
    page counter equals the backend's page count when the document is saved,
    and the last things painted are the footers, one stamp per page in page
    order, each with the final page count. *)
Theorem report_pages_and_footers (today : string) (result : AnalysisResult) :
  let b := generatePdf splitTextToSize today result in
  let N := numberOfPages (doc b) in
  (2 <= N)%nat /\ pageNumber b = N /\
  exists before,
    canvas (doc b) = (before ++ flat_map (footerStamp b N) (seq 1 N))%list.
Proof.
  cbv zeta. rewrite generatePdf_stages.
  set (bTable := addSummaryTable splitTextToSize (ranked_candidates result)
                   (reportBeforeTable splitTextToSize today result)).
  set (b0 := fst (addStyledSection "Final Recommendation" _ _)).
  assert (F1 : flows newPdfBuilder bTable).
  { eapply flows_trans; [apply flows_reportBeforeTable|].
    apply flows_addSummaryTable. }
  assert (F2 : flows (addPage bTable) b0).
  { pose (cB := @onBuilder unit (renderBiasAnalysis splitTextToSize result)).
    pose (cR := @onBuilder unit (renderRecommendation splitTextToSize result)).
    pose (s1 := reportBeforeBias splitTextToSize today result).
    pose (w2 := addStyledSection "Bias Analysis Report" cB (s1, tt)).
    pose (w3 := onBuilder (advance 10) w2).
    assert (HcB : flowingContent cB)
      by apply flows_onBuilder, flows_renderBiasAnalysis.
    assert (HcR : flowingContent cR)
      by apply flows_onBuilder, flows_renderRecommendation.
    exact (flows_trans _ _ _ (flows_reportBeforeBias today result)
             (flows_trans _ _ _
                (flows_addStyledSection "Bias Analysis Report" cB (s1, tt) HcB)
                (flows_trans _ _ _ (flows_advance 10 (fst w2))
                   (flows_addStyledSection "Final Recommendation" cR w3
                                           HcR)))). }
  destruct F1 as (_ & _ & _ & _ & _ & S1).
  specialize (S1 pagesInSync_newPdfBuilder).
  destruct (flows_addPage bTable) as (_ & _ & _ & _ & _ & S2).
  specialize (S2 S1).
  destruct F2 as (_ & _ & _ & _ & P3 & S3). specialize (S3 S2).
  rewrite pageNumber_addPage in P3. destruct S1 as (L1 & _).
  destruct S3 as (_ & N3 & _). clear S2. clearbody b0 bTable.
  unfold finalizeAndAddFooters, Doc.getNumberOfPages.
  assert (Hrange : Forall (fun i => (1 <= i <= numberOfPages (doc b0))%nat)
                          (seq 1 (numberOfPages (doc b0)))).
  { apply Forall_forall. intros i Hi. apply in_seq in Hi. lia. }
  destruct (addFooters_canvas (numberOfPages (doc b0)) _ b0 Hrange)
    as (Hc & Hn & _ & Hp).
  destruct (addFooters_frame (numberOfPages (doc b0)) _ b0 Hrange)
    as (Hw & Hh & Hg).
  cbv zeta in Hc, Hn, Hp, Hw, Hh, Hg.
  rewrite Hn, Hp. split; [lia|]. split; [now symmetry|].
  exists (canvas (doc b0)). rewrite Hc. f_equal.
  apply flat_map_ext. intro i. symmetry. apply footerStamp_ext.
  - exact Hh.
  - exact Hw.
  - assert (Hne : seq 1 (numberOfPages (doc b0)) <> [])
      by (destruct (numberOfPages (doc b0)) as [|n]; [lia|discriminate]).
    rewrite (Hg Hne). apply footerGState_idem.
Qed.


Ltac page_steps :=
  repeat first
    [ apply paintsOnPage_refl
    | eapply paintsOnPage_trans;
      [| first [ apply paintsOnPage_advance
               | apply paintsOnPage_paint
               | apply paintsOnPage_withGState ] ] ].

Lemma addBodyText_one_page text options b :
  paintsOnPage
    (checkAndAddPage
       (textHeightOf (wrap splitTextToSize b text (contentWidth b))) b)
    (addBodyText splitTextToSize (Some text) options b).
Proof. cbv beta iota delta [addBodyText]. cbv zeta. page_steps. Qed.

(** X6. Every block with a single capacity check paints everything on the page
    that check leaves it on and ends there: headings, titles, a present body
    text, the score grid, the summary table, the separator and an empty or
    absent bullet list. Inside a list with items the same holds for each item,
    not for the list. *)
Theorem atomic_blocks_stay_on_one_page (blk : Block) (b : PdfBuilder) :
  match reservedHeight splitTextToSize blk b with
  | Some h =>
      paintsOnPage (checkAndAddPage h b) (render splitTextToSize blk b)
  | None => True
  end /\
  forall item,
    paintsOnPage
      (checkAndAddPage
         (textHeightOf (wrap splitTextToSize b item (contentWidth b - 5))) b)
      (addBulletItem splitTextToSize b item).
Proof.
  split.
  - destruct blk as [text|text|text|[text|] options|[[|first rest]|]|s
                    |candidates|];
      cbn [reservedHeight render]; try exact I.
    + cbv beta delta [addHeader]. cbv zeta. page_steps.
    + cbv beta delta [addSubheader]. cbv zeta. page_steps.
    + cbv beta delta [addSectionTitle]. cbv zeta. page_steps.
    + apply addBodyText_one_page.
    + apply addBodyText_one_page.
    + apply addBodyText_one_page.
    + cbv beta delta [addScoreGrid]. cbv zeta.
      eapply paintsOnPage_trans; [|apply paintsOnPage_advance].
      apply fold_paintsOnPage. intros b0 [[label score] index].
      cbv beta iota delta [addScoreItem]. cbv zeta. page_steps.
    + assert (E : lengthQ candidates = lengthQ (map tableRow candidates))
        by (unfold lengthQ; now rewrite length_map).
      rewrite E. apply addSummaryTable_one_page.
    + cbv beta delta [addSeparator]. cbv zeta. page_steps.
  - intro item. cbv beta delta [addBulletItem]. cbv zeta. page_steps.
Qed.


Ltac table_rw :=
  repeat first
    [ progress rewrite ?y_advance, ?pageHeight_advance, ?pageNumber_advance,
                       ?y_onDoc, ?pageHeight_onDoc, ?pageNumber_onDoc
    | rewrite (proj1 (columnRules_cursor _ _ _ _))
    | rewrite (proj2 (proj2 (columnRules_cursor _ _ _ _)))
    | rewrite (proj2 (proj2 (paintBodyRows_cursor _ _ _)))
    | rewrite (proj1 (headCells_cursor _ _ _))
    | rewrite (proj2 (proj2 (headCells_cursor _ _ _))) ].

Lemma addSummaryTable_cursor (candidates : list CandidateResult)
        (b : PdfBuilder) :
  let h := (lengthQ candidates + 1) * rowHeight in
  let b0 := checkAndAddPage h b in
  let b' := addSummaryTable splitTextToSize candidates b in
  y b' == y b0 + h + 5 /\ pageNumber b' = pageNumber b0.
Proof.
  cbv zeta. cbv beta delta [addSummaryTable]. cbv zeta.
  assert (El : lengthQ (map tableRow candidates) = lengthQ candidates)
    by (unfold lengthQ; now rewrite length_map).
  rewrite El. split.
  - table_rw. rewrite (proj1 (paintBodyRows_cursor _ _ _)). table_rw.
    rewrite lengthQ_withIndex, El. ring.
  - table_rw. reflexivity.
Qed.

(** X7. The summary table moves the offset by one row height per candidate
    plus one for the head, plus 5, counted from where its capacity check
    leaves the offset: from the offset on entry if the table fits, from the
    top margin of a fresh page if not. It begins no page besides the one of
    that check. *)
Theorem summary_table_height (candidates : list CandidateResult)
        (b : PdfBuilder) :
  let h := (lengthQ candidates + 1) * rowHeight in
  let b0 := checkAndAddPage h b in
  let b' := addSummaryTable splitTextToSize candidates b in
  y b' == y b0 + h + 5 /\ pageNumber b' = pageNumber b0 /\
  (y b + h <= bottomLimit b -> y b' == y b + h + 5) /\
  (bottomLimit b < y b + h -> y b' == MARGIN + h + 5).
Proof.
  cbv zeta. destruct (addSummaryTable_cursor candidates b) as (Hy & Hp).
  cbv zeta in Hy, Hp. split; [exact Hy|]. split; [exact Hp|].
  destruct (checkAndAddPage_cases ((lengthQ candidates + 1) * rowHeight) b)
    as [[Hfit E]|[Hover E]]; rewrite E in Hy.
  - split; intro H; [exact Hy|exfalso; lra].
  - assert (Em : y (addPage b) = MARGIN) by reflexivity. rewrite Em in Hy.
    split; intro H; [exfalso; lra|exact Hy].
Qed.

(** X8. When the summary table fits below the offset on entry, it stays on the
    page, and the last things it paints are its border and its column rules,
    from the offset on entry down to that offset plus the height of all rows. *)
Theorem summary_table_border_when_it_fits (candidates : list CandidateResult)
        (b : PdfBuilder) :
  let h := (lengthQ candidates + 1) * rowHeight in
  let b' := addSummaryTable splitTextToSize candidates b in
  y b + h <= bottomLimit b ->
  pageNumber b' = pageNumber b /\
  exists before page g bottom,
    canvas (doc b') =
      (before ++ map (mkPainted page g)
                     (tableGrid (y b) bottom (contentWidth b)))%list /\
    bottom == y b + h.
Proof.
  cbv zeta. intro Hfit.
  destruct (addSummaryTable_cursor candidates b) as (Hy & Hp).
  cbv zeta in Hy, Hp.
  assert (E : checkAndAddPage ((lengthQ candidates + 1) * rowHeight) b = b).
  { destruct (checkAndAddPage_cases ((lengthQ candidates + 1) * rowHeight) b)
      as [[_ E]|[H _]]; [exact E|lra]. }
  rewrite E in Hy, Hp. split; [exact Hp|].
  destruct (addSummaryTable_grid splitTextToSize candidates b)
    as (before & page & g & bottom & Hc & Hb).
  exists before, page, g, bottom. split; [exact Hc|].
  rewrite Hb in Hy. lra.
Qed.


End EngineInvariants.

(** ** The ranking *)

Lemma processAnalysis_ok rawResult result :
  processAnalysis rawResult = inr result ->
  exists raw analysis,
    rawResult = Some raw /\ candidate_analysis raw = Some analysis /\
    ranked_candidates result =
      map setRank
          (combine (sortByOverall (map withOverall analysis))
                   (seq 0 (List.length (sortByOverall (map withOverall analysis))))).
Proof.
  unfold processAnalysis. destruct rawResult as [raw|]; [|discriminate].
  destruct (candidate_analysis raw) as [analysis|] eqn:E; [|discriminate].
  intro H. injection H as <-. now exists raw, analysis.
Qed.

Lemma length_insertByOverall c l :
  List.length (insertByOverall c l) = S (List.length l).
Proof.
  induction l as [|h t IH]; simpl; [reflexivity|].
  destruct (Qle_bool _ _); simpl; congruence.
Qed.

Lemma length_sortByOverall l : List.length (sortByOverall l) = List.length l.
Proof.
  induction l as [|h t IH]; simpl; [reflexivity|].
  now rewrite length_insertByOverall, IH.
Qed.

Lemma map_ranked {A} (f : CandidateResult -> A) l n :
  (forall e, f (setRank e) = f (fst e)) ->
  map f (map setRank (combine l (seq n (List.length l)))) = map f l.
Proof.
  intro Hf. revert n.
  induction l as [|h t IH]; intro n; cbn [map combine seq List.length];
    [reflexivity|].
  now rewrite Hf, IH.
Qed.

Lemma ranks_of_ranked l n :
  map rank (map setRank (combine l (seq n (List.length l))))
  = map (fun i => (Z.of_nat i + 1)%Z) (seq n (List.length l)).
Proof.
  revert n.
  induction l as [|h t IH]; intro n; cbn [map combine seq List.length];
    [reflexivity|].
  now rewrite IH.
Qed.

Lemma Permutation_insertByOverall c l : Permutation (c :: l) (insertByOverall c l).
Proof.
  induction l as [|h t IH]; simpl; [reflexivity|].
  destruct (Qle_bool _ _); [reflexivity|].
  rewrite perm_swap. now constructor.
Qed.

Lemma Permutation_sortByOverall l : Permutation l (sortByOverall l).
Proof.
  induction l as [|h t IH]; simpl; [constructor|].
  rewrite <- Permutation_insertByOverall. now constructor.
Qed.

Lemma outranks_trans a b c : outranks a b -> outranks b c -> outranks a c.
Proof. unfold outranks. intros. lra. Qed.

Lemma sorted_insertByOverall c l :
  StronglySorted outranks l -> StronglySorted outranks (insertByOverall c l).
Proof.
  induction 1 as [|h t Ht IH Hh]; simpl.
  - repeat constructor.
  - destruct (Qle_bool _ _) eqn:E.
    + apply Qle_bool_iff in E. constructor; [now constructor|].
      constructor; [exact E|].
      eapply Forall_impl; [|exact Hh]. intros a Ha.
      eapply outranks_trans; [exact E|exact Ha].
    + assert (Hlt : overallOf c < overallOf h).
      { apply Qnot_le_lt. intro H. apply Qle_bool_iff in H.
        unfold overallOf in H. congruence. }
      constructor; [exact IH|].
      apply (Permutation_Forall (Permutation_insertByOverall c t)).
      constructor; [unfold outranks; lra|exact Hh].
Qed.

Lemma sorted_sortByOverall l : StronglySorted outranks (sortByOverall l).
Proof.
  induction l as [|h t IH]; simpl; [constructor|].
  now apply sorted_insertByOverall.
Qed.

Lemma sorted_ranked l : forall n,
  StronglySorted outranks l ->
  StronglySorted outranks (map setRank (combine l (seq n (List.length l)))).
Proof.
  induction l as [|h t IH]; intros n H; cbn [map combine seq List.length];
    [constructor|].
  inversion H as [|? ? Ht Hh]; subst. constructor; [now apply IH|].
  apply (Forall_ranked (fun s => overall_match_score s <= overallOf h)).
  exact Hh.
Qed.

Lemma tiedAt_insertByOverall v c l :
  tiedAt v (insertByOverall c l) = tiedAt v (c :: l).
Proof.
  induction l as [|h t IH]; [reflexivity|].
  cbn [insertByOverall]. destruct (Qle_bool _ _) eqn:E; [reflexivity|].
  assert (Hlt : overallOf c < overallOf h).
  { apply Qnot_le_lt. intro H. apply Qle_bool_iff in H.
    unfold overallOf in H. congruence. }
  unfold tiedAt in *. cbn [filter] in *. rewrite IH.
  destruct (Qeq_bool (overallOf c) v) eqn:Ec; [|reflexivity].
  destruct (Qeq_bool (overallOf h) v) eqn:Eh; [|reflexivity].
  apply Qeq_bool_iff in Ec, Eh. lra.
Qed.

Lemma tiedAt_sortByOverall v l : tiedAt v (sortByOverall l) = tiedAt v l.
Proof.
  induction l as [|h t IH]; [reflexivity|].
  cbn [sortByOverall fold_right]. rewrite tiedAt_insertByOverall.
  unfold tiedAt in *. cbn [filter]. fold (sortByOverall t). now rewrite IH.
Qed.

(** X10. [processAnalysis] fails in exactly two cases, an absent raw result
    and an absent candidate list, and always with the same message. *)
Theorem processAnalysis_error_iff (rawResult : option RawAnalysisResult) :
  (forall message, processAnalysis rawResult = inl message ->
                   message = malformed) /\
  ((exists message, processAnalysis rawResult = inl message) <->
   (rawResult = None \/
    exists raw, rawResult = Some raw /\ candidate_analysis raw = None)).
Proof.
  unfold processAnalysis. destruct rawResult as [raw|].
  - destruct (candidate_analysis raw) as [analysis|] eqn:E.
    + split; [discriminate|]. split.
      * intros [m H]. discriminate.
      * intros [H|(r & H1 & H2)]; [discriminate|].
        injection H1 as <-. congruence.
    + split; [now intros m [= <-]|]. split.
      * intros _. right. now exists raw.
      * intros _. now exists malformed.
  - split; [now intros m [= <-]|]. split.
    + intros _. now left.
    + intros _. now exists malformed.
Qed.

(** X11. The ranking has as many entries as the analysis has candidates, and
    their ranks are 1, 2, ..., n in list order. *)
Theorem ranks_are_one_to_n (raw : RawAnalysisResult)
        (analysis : list UnrankedCandidateResult) (result : AnalysisResult) :
  candidate_analysis raw = Some analysis ->
  processAnalysis (Some raw) = inr result ->
  List.length (ranked_candidates result) = List.length analysis /\
  map rank (ranked_candidates result)
  = map (fun i => (Z.of_nat i + 1)%Z) (seq 0 (List.length analysis)).
Proof.
  intros Ha H. destruct (processAnalysis_ok _ _ H) as (r & a & Hr & Hc & ->).
  injection Hr as <-. rewrite Ha in Hc. injection Hc as <-.
  rewrite ranks_of_ranked, length_map, length_combine, length_seq.
  rewrite Nat.min_id, length_sortByOverall, length_map. now split.
Qed.

(** X12. In the ranking no candidate stands before one with a higher overall
    score. *)
Theorem ranking_is_sorted (rawResult : option RawAnalysisResult)
        (result : AnalysisResult) :
  processAnalysis rawResult = inr result ->
  StronglySorted outranks (ranked_candidates result).
Proof.
  intro H. destruct (processAnalysis_ok _ _ H) as (r & a & _ & _ & ->).
  apply sorted_ranked, sorted_sortByOverall.
Qed.

(** X13. Ranks apart, the ranking is a rearrangement of the scored candidates:
    none is lost, none is added, and duplicates are kept. *)
Theorem ranking_keeps_every_candidate (raw : RawAnalysisResult)
        (analysis : list UnrankedCandidateResult) (result : AnalysisResult) :
  candidate_analysis raw = Some analysis ->
  processAnalysis (Some raw) = inr result ->
  Permutation (map withOverall analysis)
              (map unranked (ranked_candidates result)).
Proof.
  intros Ha H. destruct (processAnalysis_ok _ _ H) as (r & a & Hr & Hc & ->).
  injection Hr as <-. rewrite Ha in Hc. injection Hc as <-.
  rewrite (map_ranked unranked) by (now intros [c i]).
  assert (E : map unranked (sortByOverall (map withOverall analysis))
              = sortByOverall (map withOverall analysis)).
  { rewrite <- (map_id (sortByOverall _)) at 2. apply map_ext_in.
    intros c Hc.
    apply (Permutation_in _ (Permutation_sym (Permutation_sortByOverall _)))
      in Hc.
    apply in_map_iff in Hc. destruct Hc as (u & <- & _). reflexivity. }
  rewrite E. apply Permutation_sortByOverall.
Qed.

(** X14. Candidates with equal overall scores keep the order in which the
    analysis listed them. *)
Theorem ranking_is_stable (raw : RawAnalysisResult)
        (analysis : list UnrankedCandidateResult) (result : AnalysisResult)
        (v : Q) :
  candidate_analysis raw = Some analysis ->
  processAnalysis (Some raw) = inr result ->
  map unranked (tiedAt v (ranked_candidates result))
  = tiedAt v (map withOverall analysis).
Proof.
  intros Ha H. destruct (processAnalysis_ok _ _ H) as (r & a & Hr & Hc & ->).
  injection Hr as <-. rewrite Ha in Hc. injection Hc as <-.
  set (sorted := sortByOverall (map withOverall analysis)).
  assert (G : forall l n,
            map unranked (tiedAt v (map setRank (combine l (seq n (List.length l)))))
            = map unranked (tiedAt v l)).
  { induction l as [|h t IH]; intro n; [reflexivity|].
    cbn [List.length seq combine map]. unfold tiedAt in *. cbn [filter].
    change (overallOf (setRank (h, n))) with (overallOf h).
    destruct (Qeq_bool (overallOf h) v); cbn [map]; now rewrite IH. }
  rewrite G. subst sorted. rewrite tiedAt_sortByOverall.
  rewrite <- (map_id (tiedAt v _)) at 2. apply map_ext_in.
  intros c Hc. apply filter_In in Hc. destruct Hc as [Hc _].
  apply in_map_iff in Hc. destruct Hc as (u & <- & _). reflexivity.
Qed.

(** ** The screening form *)

Lemma sameFile_refl f : sameFile f f = true.
Proof. unfold sameFile. now rewrite String.eqb_refl, Z.eqb_refl. Qed.

Lemma struckOut_unique {A} (P : A -> Prop) l : forall kept kept',
  struckOut P l kept -> struckOut P l kept' -> kept = kept'.
Proof.
  induction l as [|a l IH]; intros kept kept' H H';
    inversion H; subst; inversion H'; subst;
    try reflexivity; try contradiction.
  - f_equal. now apply IH.
  - now apply IH.
Qed.

Lemma sameFile_true existingFile file :
  sameFile existingFile file = true <->
  fileName existingFile = fileName file /\
  fileSize existingFile = fileSize file.
Proof.
  unfold sameFile. rewrite andb_true_iff, String.eqb_eq, Z.eqb_eq. tauto.
Qed.

Lemma isNew_existsb resumeFiles file :
  isNew resumeFiles file <->
  existsb (fun existingFile => sameFile existingFile file) resumeFiles
  = false.
Proof.
  unfold isNew. split.
  - intro H. destruct (existsb _ resumeFiles) eqn:E; [|reflexivity].
    apply existsb_exists in E. destruct E as (e & Hin & Hs).
    apply sameFile_true in Hs. destruct (H e Hin); tauto.
  - intros H e Hin.
    destruct (String.eqb (fileName e) (fileName file)) eqn:En.
    + destruct (Z.eqb (fileSize e) (fileSize file)) eqn:Es.
      * exfalso.
        assert (X : existsb (fun existingFile => sameFile existingFile file)
                            resumeFiles = true).
        { apply existsb_exists. exists e. split; [exact Hin|].
          unfold sameFile. now rewrite En, Es. }
        congruence.
      * right. now apply Z.eqb_neq.
    + left. now apply String.eqb_neq.
Qed.

(** X15. Dropping no file list changes nothing. Dropping files appends, after
    the files of the state, the batch with the files struck out that agree
    with a chosen file in both name and size: the others stay in the order
    dropped and as often as dropped. Onto an empty choice the whole batch
    is appended. *)
Theorem dropped_files_are_appended_once
        (resumeFiles prevFiles batch : list File) :
  handleResumeFiles resumeFiles None prevFiles = prevFiles /\
  exists added,
    handleResumeFiles resumeFiles (Some batch) prevFiles
    = (prevFiles ++ added)%list /\
    struckOut (isNew resumeFiles) batch added /\
    (resumeFiles = [] -> added = batch).
Proof.
  split; [reflexivity|]. cbn [handleResumeFiles]. eexists.
  split; [reflexivity|]. split.
  - induction batch as [|file batch IH]; cbn [filter]; [constructor|].
    destruct (existsb _ resumeFiles) eqn:E; cbn [negb].
    + apply struck_drop; [|exact IH]. intro H.
      apply isNew_existsb in H. congruence.
    + apply struck_keep; [|exact IH]. now apply isNew_existsb.
  - intros ->. cbn [existsb negb]. induction batch as [|f t IH]; cbn;
      [reflexivity|now rewrite IH].
Qed.

(** X16. Once a batch has been dropped and the form has been rendered again,
    dropping the same batch once more leaves the choice as it is. *)
Theorem dropping_the_same_files_again_adds_nothing
        (resumeFiles batch : list File) :
  let once := handleResumeFiles resumeFiles (Some batch) resumeFiles in
  handleResumeFiles once (Some batch) once = once.
Proof.
  cbv zeta. cbn [handleResumeFiles].
  set (fresh := fun file =>
         negb (existsb (fun existingFile => sameFile existingFile file)
                       resumeFiles)).
  set (once := (resumeFiles ++ filter fresh batch)%list).
  assert (E : forall file, In file batch ->
                existsb (fun existingFile => sameFile existingFile file) once
                = true).
  { intros file Hin. subst once. rewrite existsb_app.
    destruct (existsb (fun existingFile => sameFile existingFile file)
                      resumeFiles) eqn:Eold; [reflexivity|].
    cbn [orb]. apply existsb_exists. exists file. split.
    - apply filter_In. split; [exact Hin|]. unfold fresh. now rewrite Eold.
    - apply sameFile_refl. }
  assert (F : filter (fun file =>
                negb (existsb (fun existingFile => sameFile existingFile file)
                              once)) batch = []).
  { clearbody once. clear fresh. induction batch as [|f t IH]; [reflexivity|].
    cbn [filter]. rewrite (E f) by now left. cbn [negb].
    apply IH. intros file Hin. apply E. now right. }
  rewrite F. apply app_nil_r.
Qed.

Lemma remove_at l : forall index n,
  map fst (filter (fun entry : File * nat => negb (snd entry =? n + index)%nat)
                  (combine l (seq n (List.length l))))
  = (firstn index l ++ skipn (S index) l)%list.
Proof.
  induction l as [|f t IH]; intros index n.
  - now destruct index.
  - cbn [List.length seq combine filter snd].
    destruct index as [|index].
    + rewrite Nat.add_0_r, Nat.eqb_refl. cbn [negb firstn skipn app].
      clear IH. generalize (Nat.lt_succ_diag_r n). generalize (S n) as m.
      induction t as [|g t IH]; intros m Hm; [reflexivity|].
      cbn [List.length seq combine filter snd map fst].
      assert (Hne : (m =? n)%nat = false) by (apply Nat.eqb_neq; lia).
      rewrite Hne. cbn [negb map fst]. f_equal. apply IH. lia.
    + assert (Hne : (n =? n + S index)%nat = false)
        by (apply Nat.eqb_neq; lia).
      rewrite Hne. cbn [negb map fst firstn skipn app]. f_equal.
      replace (n + S index)%nat with (S n + index)%nat by lia. apply IH.
Qed.

(** X17. Removing the file at an index keeps the files before and after it in
    order; the choice gets shorter by one if the index is in range and is
    unchanged if not. *)
Theorem removing_a_file_removes_that_one (index : nat) (prevFiles : list File) :
  handleRemoveResumeFile index prevFiles
  = (firstn index prevFiles ++ skipn (S index) prevFiles)%list /\
  ((index < List.length prevFiles)%nat ->
   S (List.length (handleRemoveResumeFile index prevFiles))
   = List.length prevFiles) /\
  ((List.length prevFiles <= index)%nat ->
   handleRemoveResumeFile index prevFiles = prevFiles).
Proof.
  assert (E : handleRemoveResumeFile index prevFiles
              = (firstn index prevFiles ++ skipn (S index) prevFiles)%list)
    by apply (remove_at prevFiles index 0).
  split; [exact E|]. rewrite E. split; intro H.
  - rewrite length_app, length_firstn, length_skipn. lia.
  - rewrite firstn_all2 by lia. rewrite skipn_all2 by lia. apply app_nil_r.
Qed.

(** ** Progress *)

Lemma Math_round_le (x z : Q) : x <= z -> (Math_round x <= Math_round z)%Z.
Proof. intro H. unfold Math_round. apply Qfloor_resp_le. lra. Qed.

Lemma ratio_bounds (c t : nat) :
  (1 <= c <= t)%nat ->
  0 < inject_Z (Z.of_nat c) / inject_Z (Z.of_nat t) <= 1.
Proof.
  intros [H1 H2].
  assert (Hc : 0 < inject_Z (Z.of_nat c))
    by (change 0 with (inject_Z 0); rewrite <- Zlt_Qlt; lia).
  assert (Ht : 0 < inject_Z (Z.of_nat t))
    by (change 0 with (inject_Z 0); rewrite <- Zlt_Qlt; lia).
  assert (Hct : inject_Z (Z.of_nat c) <= inject_Z (Z.of_nat t))
    by (rewrite <- Zle_Qle; lia).
  split.
  - apply Qlt_shift_div_l; [exact Ht|lra].
  - apply Qle_shift_div_r; [exact Ht|lra].
Qed.

(** X18. While the resumes are analysed the progress shown is an integer
    between 5 and 95, it does not fall as more resumes complete, and it is 95
    when the last one completes. *)
Theorem progress_runs_from_5_to_95 (completed completed' total : nat) :
  (1 <= completed <= completed')%nat -> (completed' <= total)%nat ->
  (5 <= resumeProgress completed total)%Z /\
  (resumeProgress completed total <= resumeProgress completed' total)%Z /\
  (resumeProgress completed' total <= 95)%Z /\
  resumeProgress total total = 95%Z.
Proof.
  intros [H1 H2] H3. unfold resumeProgress.
  assert (Ht : 0 < inject_Z (Z.of_nat total))
    by (change 0 with (inject_Z 0); rewrite <- Zlt_Qlt; lia).
  destruct (ratio_bounds completed total) as [A1 A2]; [lia|].
  destruct (ratio_bounds completed' total) as [B1 B2]; [lia|].
  assert (M : inject_Z (Z.of_nat completed) / inject_Z (Z.of_nat total)
              <= inject_Z (Z.of_nat completed') / inject_Z (Z.of_nat total)).
  { unfold Qdiv. apply Qmult_le_compat_r.
    - rewrite <- Zle_Qle. lia.
    - apply Qlt_le_weak, Qinv_lt_0_compat, Ht. }
  assert (R0 : Math_round 0 = 0%Z) by reflexivity.
  assert (R90 : Math_round 90 = 90%Z) by reflexivity.
  repeat split.
  - assert (L : 0 <= inject_Z (Z.of_nat completed)
                     / inject_Z (Z.of_nat total) * 90) by nra.
    apply Math_round_le in L. rewrite R0 in L. lia.
  - apply Z.add_le_mono_l, Math_round_le. nra.
  - assert (U : inject_Z (Z.of_nat completed')
                / inject_Z (Z.of_nat total) * 90 <= 90) by nra.
    apply Math_round_le in U. rewrite R90 in U. lia.
  - assert (E : inject_Z (Z.of_nat total) / inject_Z (Z.of_nat total) * 90 == 90).
    { field. lra. }
    assert (Er : Math_round (inject_Z (Z.of_nat total)
                             / inject_Z (Z.of_nat total) * 90) = 90%Z).
    { unfold Math_round. rewrite E. reflexivity. }
    rewrite Er. reflexivity.
Qed.

(** ** The filters over the ranking *)

Section FilteringFacts.

Variable toLowerCase : string -> string.

Lemma ranked_overall_nonneg rawResult result :
  processAnalysis rawResult = inr result ->
  Forall (fun c => 0 <= overall_match_score (scores c))
         (ranked_candidates result).
Proof.
  unfold processAnalysis.
  destruct rawResult as [raw|]; [|discriminate].
  destruct (candidate_analysis raw) as [analysis|]; [|discriminate].
  intro H. injection H as <-. cbn [ranked_candidates].
  apply (Forall_ranked (fun s => 0 <= overall_match_score s)).
  apply Forall_sortByOverall. apply Forall_forall.
  intros c Hc. apply in_map_iff in Hc. destruct Hc as [u [<- _]].
  unfold withOverall. cbn [scores overall_match_score].
  pose proof (clampScore_range
    (raw_semantic_relevance_score (orDefault (raw_scores u) emptyScores))).
  pose proof (clampScore_range
    (raw_skill_match_score (orDefault (raw_scores u) emptyScores))).
  pose proof (clampScore_range
    (raw_experience_match_score (orDefault (raw_scores u) emptyScores))).
  pose proof (clampScore_range
    (raw_education_match_score (orDefault (raw_scores u) emptyScores))).
  lra.
Qed.

(** X19. With the filters as [handleAnalyze] resets them, minimum score 0 and
    an empty search, the list shown is the whole ranking of [processAnalysis]. *)
Theorem fresh_analysis_shows_every_candidate
        (rawResult : option RawAnalysisResult) (result : AnalysisResult) :
  processAnalysis rawResult = inr result ->
  filteredCandidates toLowerCase (Some result) 0 "" = ranked_candidates result.
Proof.
  intro H. apply ranked_overall_nonneg in H. cbn [filteredCandidates].
  induction H as [|c l Hc Hl IH]; [reflexivity|].
  cbn [filter]. rewrite IH. unfold candidateShown. cbn [isEmptyString orb].
  apply Qle_bool_iff in Hc. now rewrite Hc.
Qed.

Lemma filter_twice {A} (p q : A -> bool) l :
  filter p (filter q l) = filter (fun a => p a && q a) l.
Proof.
  induction l as [|a l IH]; [reflexivity|]. cbn [filter].
  destruct (q a); cbn [filter]; rewrite ?andb_true_r, ?andb_false_r;
    [destruct (p a)|]; now rewrite IH.
Qed.

Lemma candidateShown_raise filterScore filterScore' searchTerm c :
  filterScore <= filterScore' ->
  candidateShown toLowerCase filterScore' searchTerm c
  = Qle_bool filterScore' (overall_match_score (scores c))
    && candidateShown toLowerCase filterScore searchTerm c.
Proof.
  intro Hle. unfold candidateShown. cbv zeta.
  destruct (Qle_bool filterScore' (overall_match_score (scores c))) eqn:E';
    [|reflexivity].
  assert (E : Qle_bool filterScore (overall_match_score (scores c)) = true).
  { apply Qle_bool_iff. apply Qle_bool_iff in E'. lra. }
  now rewrite E.
Qed.

(** X20. Every candidate shown has at least the minimum score; raising the
    minimum shows exactly the candidates shown before whose score reaches the
    new minimum, in the same order; and before the first analysis nothing is
    shown. *)
Theorem raising_the_minimum_score_only_hides
        (result : option AnalysisResult) (filterScore filterScore' : Q)
        (searchTerm : string) :
  Forall (fun c => filterScore <= overall_match_score (scores c))
         (filteredCandidates toLowerCase result filterScore searchTerm) /\
  (filterScore <= filterScore' ->
   filteredCandidates toLowerCase result filterScore' searchTerm
   = filter (fun c => Qle_bool filterScore' (overall_match_score (scores c)))
            (filteredCandidates toLowerCase result filterScore searchTerm)) /\
  filteredCandidates toLowerCase None filterScore searchTerm = [].
Proof.
  split; [|split; [|reflexivity]].
  - destruct result as [result|]; [|constructor]. cbn [filteredCandidates].
    apply Forall_forall. intros c Hc. apply filter_In in Hc.
    destruct Hc as [_ Hc]. unfold candidateShown in Hc.
    apply andb_true_iff in Hc. destruct Hc as [Hc _].
    now apply Qle_bool_iff.
  - intro Hle. destruct result as [result|]; [|reflexivity].
    cbn [filteredCandidates].
    rewrite filter_twice. apply filter_ext. intro c.
    apply candidateShown_raise, Hle.
Qed.

End FilteringFacts.

(** * Concrete runs *)

Example pageStr_3_of_12 : pageStr 3 12 = "Page 3 of 12".
Proof. reflexivity. Qed.

Example percent_rounds_half_up : percent 81.5 = "82%".
Proof. reflexivity. Qed.

Example sample_is_ranked :
  map (fun c => (rank c, name (parsed_resume c))) (ranked_candidates sampleResult)
  = [(1%Z, "Ada"); (2%Z, "Bob")].
Proof. vm_compute. reflexivity. Qed.

(** Closed comparisons of rationals, by evaluation. *)
Ltac qle := apply Qle_bool_iff; vm_compute; reflexivity.
Ltac qlt := unfold Qlt; vm_compute; reflexivity.

(** *** The capacity check on a fresh page *)

Lemma checkAndAddPage_spec_witness :
  checkAndAddPage 20 newPdfBuilder = newPdfBuilder /\
  pageNumber (checkAndAddPage 300 newPdfBuilder)
    = S (pageNumber newPdfBuilder) /\
  y (checkAndAddPage 300 newPdfBuilder) = MARGIN.
Proof.
  split.
  - apply (proj1 (checkAndAddPage_spec 20 newPdfBuilder)). qle.
  - apply (proj2 (checkAndAddPage_spec 300 newPdfBuilder)). qlt.
Defined.

(** *** Scores *)

Lemma overall_is_weighted_sum_up_to_rounding_witness :
  overall_match_score_binary64 ada == 81.5.
Proof.
  apply (proj2 (proj2 (proj2 (proj2 (proj2 (proj2 (proj2
           (overall_is_weighted_sum_up_to_rounding ada)))))))).
  reflexivity.
Defined.

(** C8 fails as stated. With semantic 60, skill 61, experience 62 and
    education 76, all of them within [0,100], the weighted sum is 61.5 and
    the code computes 61.5 - 2^-47, which it prints as 61.49999999999999:
    18.3, 12.4 and 3.8 are no binary64 numbers, and the sums are rounded
    again. *)
Lemma weighted_sum_is_rounded :
  let s := scores (withOverall eve) in
  [semantic_relevance_score s; skill_match_score s; experience_match_score s;
   education_match_score s] = [60; 61; 62; 76] /\
  weightedOverall 60 61 62 76 == 61.5 /\
  overall_match_score_binary64 eve == 61.5 - (1 # 140737488355328) /\
  ~ overall_match_score_binary64 eve == weightedOverall 60 61 62 76.
Proof.
  cbv zeta. repeat (split; [vm_compute; reflexivity|]).
  intro H. vm_compute in H. discriminate H.
Qed.

Lemma overall_within_0_100_witness :
  Forall (fun c => 0 <= overall_match_score (scores c) <= 100)
         (ranked_candidates sampleResult).
Proof.
  apply (overall_within_0_100 (Some sampleRaw) sampleResult).
  vm_compute. reflexivity.
Defined.

(** The scenario and both ends of the range come out exactly on the
    primitive binary64 numbers: the four products round to 40.5, 24, 14 and
    3, and to 45, 30, 20 and 5. On every input tried the primitive numbers
    and [fl] agree to the last bit. *)
Module Binary64Runs.

Import PrimFloat Binary64.

Example overall_scenario_in_binary64 :
  overallFloat 90 80 70 60 = 81.5%float /\
  overallFloat 100 100 100 100 = 100%float /\
  overallFloat 0 0 0 0 = 0%float.
Proof. repeat split; vm_compute; reflexivity. Qed.

#[warning="-inexact-float"]
Example literals_agree :
  agree 0.45 (fl 0.45) && agree 0.30 (fl 0.30) && agree 0.20 (fl 0.20)
  && agree 0.05 (fl 0.05) && agree 33.3 (fl 33.3) && agree 0.1 (fl 0.1)
  = true.
Proof. vm_compute. reflexivity. Qed.

#[warning="-inexact-float"]
Example overall_agrees :
  agree (overallFloat 60 61 62 76)
        (overall_match_score_binary64 (scored 60 61 62 76))
  && agree (overallFloat 90 80 70 60)
           (overall_match_score_binary64 (scored 90 80 70 60))
  && agree (overallFloat 33.3 66.6 12.5 99.9)
           (overall_match_score_binary64
              (scored (fl 33.3) (fl 66.6) 12.5 (fl 99.9)))
  && agree (overallFloat 1 3 7 9)
           (overall_match_score_binary64 (scored 1 3 7 9))
  && agree (overallFloat 0.1 0.2 0.3 0.7)
           (overall_match_score_binary64
              (scored (fl 0.1) (fl 0.2) (fl 0.3) (fl 0.7)))
  = true.
Proof. vm_compute. reflexivity. Qed.

(** Semantic and skill over 0, 10, ..., 100, experience and education
    spread over 0..100 along with them. *)
Example overall_agrees_on_a_grid :
  let grid := map (fun i => (Z.of_nat i * 10)%Z) (seq 0 11) in
  forallb
    (fun a =>
       forallb
         (fun b =>
            let c := ((a * 7 + b * 3) mod 101)%Z in
            let d := ((a * 13 + b * 5 + 1) mod 101)%Z in
            agree (overallFloat (ofZ a) (ofZ b) (ofZ c) (ofZ d))
                  (overall_match_score_binary64
                     (scored (inject_Z a) (inject_Z b) (inject_Z c)
                             (inject_Z d))))
         grid)
    grid
  = true.
Proof. vm_compute. reflexivity. Qed.

#[warning="-inexact-float"]
Example rounded_sum_in_primitive_floats :
  overallFloat 60 61 62 76 = 61.499999999999993%float /\
  (overallFloat 60 61 62 76 =? 61.5)%float = false.
Proof. split; vm_compute; reflexivity. Qed.

End Binary64Runs.

(** *** Absent text and empty lists *)

Lemma absent_text_and_empty_list_witness :
  y (addBulletList typewriter (Some []) newPdfBuilder)
  == y (checkAndAddPage
          (textHeightOf (wrap typewriter newPdfBuilder "None listed"
                              (contentWidth newPdfBuilder)))
          newPdfBuilder) + 5.29167.
Proof.
  destruct (absent_text_and_empty_list typewriter noOptions (Some [])
                                       newPdfBuilder) as [_ H].
  destruct (H (or_intror eq_refl)) as (_ & _ & Hline).
  apply Hline. vm_compute. reflexivity.
Defined.

(** *** The band invariant *)



(** A block with no room on an empty page is moved to a fresh page and still
    runs over, whatever the wrapping ([oversized_text_leaves_band]). With
    the typewriter, for one, a text of 4800 characters makes 54 lines, which
    end at offset 300.75018. *)
Lemma tall_text_leaves_band :
  List.length (wrap typewriter newPdfBuilder longText
                    (contentWidth newPdfBuilder)) = 54%nat /\
  pageNumber (render typewriter (BodyText (Some longText) noOptions)
                     newPdfBuilder) = 2%nat /\
  y (render typewriter (BodyText (Some longText) noOptions) newPdfBuilder)
  == 300.75018 /\
  bottomLimit (render typewriter (BodyText (Some longText) noOptions)
                      newPdfBuilder)
  < y (render typewriter (BodyText (Some longText) noOptions) newPdfBuilder).
Proof.
  repeat (split; [vm_compute; reflexivity|]).
  apply (oversized_text_leaves_band typewriter longText noOptions
                                    newPdfBuilder).
  - qle.
  - unfold fits. apply Qlt_not_le. qlt.
Qed.

(** *** Footers *)

Example footer_of_page_3 :
  readsPageOf "Page 3 of 12" 3 12 /\ ~ readsPageOf "Page 03 of 12" 3 12 /\
  ~ readsPageOf "" 3 12.
Proof.
  split; [exact (pageStr_reads 3 12)|].
  split; intro H;
    pose proof (readsPageOf_unique _ _ _ _ H (pageStr_reads 3 12)) as E;
    discriminate E.
Qed.

(** *** Which way the cursor moves *)

Lemma offset_lowered_only_across_addPage_witness :
  forwardOnly newPdfBuilder
    (fst (addStyledSection "Notes" (onBuilder (render typewriter Separator))
                           (newPdfBuilder, tt))).
Proof.
  apply (proj1 (proj2 (proj2 (proj2
           (offset_lowered_only_across_addPage typewriter)))) unit "Notes"
           (onBuilder (render typewriter Separator)) (newPdfBuilder, tt)).
  intro w. apply (block_forwardOnly typewriter Separator).
Defined.

(** C6 fails as stated. In the recommendation section of a fresh document
    the cursor stands at 45.98334 after the first pass, and the next write,
    the start of the repaint, puts it at 23.4 on the same page: no page was
    begun in between. *)
Lemma repaint_moves_cursor_back :
  let before := fst (nth 7 recommendationStates (newPdfBuilder, tt)) in
  let after := fst (nth 8 recommendationStates (newPdfBuilder, tt)) in
  y before == 45.98334 /\ y after == 23.4 /\
  pageNumber after = pageNumber before /\
  numberOfPages (doc after) = numberOfPages (doc before) /\
  ~ cursorNeverRetreats "Final Recommendation"
      (onBuilder (renderRecommendation typewriter sampleResult))
      (newPdfBuilder, tt).
Proof.
  cbv zeta. repeat (split; [vm_compute; reflexivity|]).
  intro H.
  apply (chain_nth _ (newPdfBuilder, tt) _ 7%nat) in H;
    [|vm_compute; lia].
  destruct H as [_ Hy]. fold recommendationStates in Hy.
  assert (Hlt : y (fst (nth 8 recommendationStates (newPdfBuilder, tt)))
                < y (fst (nth 7 recommendationStates (newPdfBuilder, tt))))
    by qlt.
  revert Hlt. apply Qle_not_lt. apply Hy. vm_compute. reflexivity.
Qed.

(** *** Two whole reports *)

(** C3 at a failing input: a report with 25 ranked candidates. The cursor
    reaches the summary table at offset 68.98334 on page 1; the 26 rows do
    not fit, the capacity check begins page 2 and the table is painted there
    from offset 15 to offset 223. Its border is painted on page 2 from
    offset 68.98334, the offset recorded before the check, with height
    154.01666: it does not span the table from its start to its end. *)
Theorem table_border_hangs_from_stale_offset :
  let candidates := ranked_candidates twentyFive in
  let b0 := reportBeforeTable typewriter today twentyFive in
  let b1 := addSummaryTable typewriter candidates b0 in
  let painted := paintedBy (addSummaryTable typewriter candidates) b0 in
  y b0 == 68.98334 /\ pageNumber b0 = 1%nat /\
  y (checkAndAddPage ((lengthQ candidates + 1) * rowHeight) b0) = MARGIN /\
  pageNumber b1 = 2%nat /\ y b1 == 15 + 26 * 8 + 5 /\
  forallb (fun p => (onPage p =? 2)%nat) painted = true /\
  hd_error (map rectOf (filter isFillRect painted))
    = Some (Some (2%nat, Qred 15, Qred 8)) /\
  map rectOf (filter isStrokeRect painted)
    = [Some (2%nat, Qred 68.98334, Qred 154.01666)].
Proof. cbv zeta. repeat split; vm_compute; reflexivity. Qed.

(** C2 at a failing input: a report with no candidates and 18 bias flags.
    The bias section starts on page 2 at offset 44.4 and its first pass ends
    on page 3 at offset 32.58334, so the content did cross a page boundary;
    yet the test compares floor(44.3 / 297.0000833) with
    floor(32.48334 / 297.0000833), both 0, and reports no break. The branch
    for content on one page runs: a box of height -11.81666 is painted on
    page 3, and the title, first painted on page 2, is painted again on
    page 3. *)
Theorem page_break_inside_section_goes_undetected :
  let b0 := reportBeforeBias typewriter today eighteenFlags in
  let content := onBuilder (renderBiasAnalysis typewriter eighteenFlags) in
  let first := fst (sectionFirstPass "Bias Analysis Report" content (b0, tt)) in
  let painted := paintedBy (biasSection typewriter eighteenFlags) b0 in
  pageNumber b0 = 2%nat /\ pageNumber first = 3%nat /\
  sectionStartY b0 == 44.4 /\ y first == 32.58334 /\
  spansPageBreak (sectionStartY b0) (y first) (pageHeight first) = false /\
  map rectOf (filter isFillRect painted)
    = [Some (3%nat, Qred 44.4, Qred (-11.81666))] /\
  map onPage (filter (isTextOf "Bias Analysis Report") painted)
    = [2%nat; 3%nat].
Proof. cbv zeta. repeat split; vm_compute; reflexivity. Qed.

(** *** What every step of the engine keeps *)

Lemma blocks_keep_pages_in_sync_witness :
  pagesInSync (render typewriter (BodyText (Some longText) noOptions)
                      newPdfBuilder) /\
  (pageNumber newPdfBuilder
   <= pageNumber (render typewriter (BodyText (Some longText) noOptions)
                         newPdfBuilder))%nat.
Proof.
  apply (blocks_keep_pages_in_sync typewriter
           (BodyText (Some longText) noOptions) newPdfBuilder).
  repeat split; vm_compute; lia.
Defined.

Lemma styled_section_only_appends_witness :
  exists ops,
    canvas (doc (fst (addStyledSection "Notes"
                        (onBuilder (render typewriter Separator))
                        (newPdfBuilder, tt))))
    = (canvas (doc newPdfBuilder) ++ ops)%list.
Proof.
  apply (proj1 (proj2 (proj2 (proj2
           (styled_section_only_appends "Notes"
              (onBuilder (render typewriter Separator)) (newPdfBuilder, tt)
              (flows_onBuilder _ (flows_render typewriter Separator))))))).
Defined.

Lemma candidate_details_only_append_witness :
  pagesInSync (addCandidateDetails typewriter newPdfBuilder sampleCandidate).
Proof.
  apply (proj2 (proj2 (proj2 (proj2 (proj2
           (candidate_details_only_append typewriter sampleCandidate
                                          newPdfBuilder)))))).
  repeat split; vm_compute; lia.
Defined.

(** *** The summary table *)

Lemma summary_table_height_witness :
  y (addSummaryTable typewriter thirtyOne newPdfBuilder)
  == y newPdfBuilder + (lengthQ thirtyOne + 1) * rowHeight + 5.
Proof.
  apply (proj1 (proj2 (proj2
           (summary_table_height typewriter thirtyOne newPdfBuilder)))).
  qle.
Defined.

Lemma summary_table_border_when_it_fits_witness :
  pageNumber (addSummaryTable typewriter (ranked_candidates sampleResult)
                              newPdfBuilder)
  = pageNumber newPdfBuilder /\
  exists before page g bottom,
    canvas (doc (addSummaryTable typewriter (ranked_candidates sampleResult)
                                 newPdfBuilder))
    = (before ++ map (mkPainted page g)
                     (tableGrid (y newPdfBuilder) bottom
                                (contentWidth newPdfBuilder)))%list /\
    bottom == y newPdfBuilder
              + (lengthQ (ranked_candidates sampleResult) + 1) * rowHeight.
Proof.
  apply (summary_table_border_when_it_fits typewriter
           (ranked_candidates sampleResult) newPdfBuilder).
  qle.
Defined.

(** *** The second pass of a styled section *)

Lemma repaint_starts_lower_witness :
  let firstRun := fst (nth 4 recommendationStates (newPdfBuilder, tt)) in
  let rewound := fst (nth 8 recommendationStates (newPdfBuilder, tt)) in
  let secondRun := fst (nth 10 recommendationStates (newPdfBuilder, tt)) in
  y rewound == y firstRun - 7 /\
  y secondRun == y firstRun + 3.4 /\
  pageNumber secondRun = pageNumber rewound.
Proof.
  apply (repaint_starts_lower "Final Recommendation"
           (onBuilder (renderRecommendation typewriter sampleResult))
           (newPdfBuilder, tt)).
  qle.
Defined.

(** *** The ranking *)

Lemma processAnalysis_error_iff_witness :
  exists message, processAnalysis None = inl message.
Proof.
  apply (proj2 (proj2 (processAnalysis_error_iff None))). now left.
Defined.

Lemma ranks_are_one_to_n_witness :
  List.length (ranked_candidates sampleResult) = List.length sampleAnalysis /\
  map rank (ranked_candidates sampleResult)
  = map (fun i => (Z.of_nat i + 1)%Z) (seq 0 (List.length sampleAnalysis)).
Proof.
  apply (ranks_are_one_to_n sampleRaw sampleAnalysis sampleResult).
  - reflexivity.
  - vm_compute. reflexivity.
Defined.

Lemma ranking_is_sorted_witness :
  StronglySorted outranks (ranked_candidates sampleResult).
Proof.
  apply (ranking_is_sorted (Some sampleRaw) sampleResult).
  vm_compute. reflexivity.
Defined.

Lemma ranking_keeps_every_candidate_witness :
  Permutation (map withOverall sampleAnalysis)
              (map unranked (ranked_candidates sampleResult)).
Proof.
  apply (ranking_keeps_every_candidate sampleRaw sampleAnalysis sampleResult).
  - reflexivity.
  - vm_compute. reflexivity.
Defined.

Lemma ranking_is_stable_witness :
  map unranked (tiedAt 81.5 (ranked_candidates (analysed tiedRaw)))
  = tiedAt 81.5 (map withOverall tiedAnalysis).
Proof.
  apply (ranking_is_stable tiedRaw tiedAnalysis (analysed tiedRaw) 81.5).
  - reflexivity.
  - vm_compute. reflexivity.
Defined.

Example tied_candidates_keep_their_order :
  map (fun c => (rank c, name (parsed_resume c),
                 Qred (overall_match_score (scores c))))
      (ranked_candidates (analysed tiedRaw))
  = [(1%Z, "Quinn", 355 # 4); (2%Z, "Pat", 163 # 2); (3%Z, "Ray", 163 # 2)].
Proof. vm_compute. reflexivity. Qed.

(** *** The screening form *)

Lemma dropped_files_are_appended_once_witness :
  handleResumeFiles [cvAda; cvBob] (Some [cvCyd; cvAda; cvAdaRevised; cvCyd]) [cvAda; cvBob]
  = [cvAda; cvBob; cvCyd; cvAdaRevised; cvCyd].
Proof.
  destruct (proj2 (dropped_files_are_appended_once [cvAda; cvBob] [cvAda; cvBob]
                     [cvCyd; cvAda; cvAdaRevised; cvCyd]))
    as (added & E & K & _).
  rewrite E. apply (f_equal (app [cvAda; cvBob])).
  apply (struckOut_unique _ _ _ _ K).
  assert (N : forall f, In f [cvCyd; cvAdaRevised] -> isNew [cvAda; cvBob] f).
  { intros f Hf e He. cbn [In] in Hf, He.
    destruct Hf as [<-|[<-|[]]]; destruct He as [<-|[<-|[]]];
      (left; discriminate) || (right; discriminate). }
  apply struck_keep; [apply N; now left|].
  apply struck_drop.
  { intro H. destruct (H cvAda) as [X|X]; [now left|now apply X|now apply X]. }
  apply struck_keep; [apply N; right; now left|].
  apply struck_keep; [apply N; now left|]. constructor.
Defined.

Lemma removing_a_file_removes_that_one_witness :
  S (List.length (handleRemoveResumeFile 1 [cvAda; cvBob; cvCyd]))
  = List.length [cvAda; cvBob; cvCyd].
Proof.
  apply (proj1 (proj2 (removing_a_file_removes_that_one 1
                         [cvAda; cvBob; cvCyd]))).
  vm_compute. lia.
Defined.

Lemma progress_runs_from_5_to_95_witness :
  (5 <= resumeProgress 1 3)%Z /\
  (resumeProgress 1 3 <= resumeProgress 2 3)%Z /\
  (resumeProgress 2 3 <= 95)%Z /\
  resumeProgress 3 3 = 95%Z.
Proof. apply (progress_runs_from_5_to_95 1 2 3); lia. Defined.

Example progress_of_three_resumes :
  map (fun completed => resumeProgress completed 3) [1; 2; 3]%nat
  = [35; 65; 95]%Z.
Proof. vm_compute. reflexivity. Qed.

Lemma fresh_analysis_shows_every_candidate_witness :
  filteredCandidates asciiLowerCase (Some sampleResult) 0 ""
  = ranked_candidates sampleResult.
Proof.
  apply (fresh_analysis_shows_every_candidate asciiLowerCase (Some sampleRaw)
                                              sampleResult).
  vm_compute. reflexivity.
Defined.

Lemma raising_the_minimum_score_only_hides_witness :
  filteredCandidates asciiLowerCase (Some sampleResult) 80 ""
  = filter (fun c => Qle_bool 80 (overall_match_score (scores c)))
           (filteredCandidates asciiLowerCase (Some sampleResult) 50 "").
Proof.
  apply (proj1 (proj2 (raising_the_minimum_score_only_hides asciiLowerCase
                         (Some sampleResult) 50 80 ""))).
  qle.
Defined.

Example raising_to_80_hides_bob :
  map (fun c => name (parsed_resume c))
      (filteredCandidates asciiLowerCase (Some sampleResult) 50 "")
  = ["Ada"; "Bob"] /\
  map (fun c => name (parsed_resume c))
      (filteredCandidates asciiLowerCase (Some sampleResult) 80 "")
  = ["Ada"].
Proof. split; vm_compute; reflexivity. Qed.

Example search_ignores_case :
  map (fun c => name (parsed_resume c))
      (filteredCandidates asciiLowerCase (Some sampleResult) 0 "aDa")
  = ["Ada"].
Proof. vm_compute. reflexivity. Qed.
